(** * Air-Traffic-Analyzer: the flight aggregation and classification core

    A shallow embedding of the request handlers of [app.py]
    ([api_flights_live], [api_stats_summary], [api_airport_weather],
    [api_airport_traffic]) and the properties the specification states
    about them.

    Modelling conventions.
    - JSON numbers of the feed (coordinates, altitude, velocity, heading,
      wind speed) are rationals [Q]: every finite float and every integer
      is one, and Python compares them exactly.  NaN and infinities are
      outside the model.
    - Floating-point arithmetic is IEEE 754 binary64 on these rationals:
      the exact result rounded to the nearest float, ties to even.  The
      C library's [sin], [cos], [asin], [sqrt] and [pow] are a parameter
      of the traffic handler; [math.sqrt] and [math.asin] raise outside
      their domains.  [Geo.haversine] is the same formula over the
      reals [R].
    - Text is [string], read as ASCII; case mapping and whitespace are
      those of Python's [str] on ASCII code points.
    - The SQLite tables are lists of rows in insertion order.
    - The two network fetches are inputs: the feed response is an
      argument, the weather provider is a function of the request. *)

From stdpp Require Import list.
From Stdlib Require Import String Ascii ZArith QArith Qround Qabs Reals Lra Lia
  Sorted.
From Stdlib Require Lqa.

Local Open Scope bool_scope.

(** ** Python text primitives *)

Module Text.

Local Open Scope string_scope.

(** [str.isspace] on an ASCII code point: TAB..CR, FS..US and space. *)
Definition is_space (c : ascii) : bool :=
  let n := nat_of_ascii c in
  ((9 <=? n)%nat && (n <=? 13)%nat) || ((28 <=? n)%nat && (n <=? 32)%nat).

Definition upper_char (c : ascii) : ascii :=
  let n := nat_of_ascii c in
  if (97 <=? n)%nat && (n <=? 122)%nat then ascii_of_nat (n - 32) else c.

Definition lower_char (c : ascii) : ascii :=
  let n := nat_of_ascii c in
  if (65 <=? n)%nat && (n <=? 90)%nat then ascii_of_nat (n + 32) else c.

Fixpoint map_chars (f : ascii -> ascii) (s : string) : string :=
  match s with
  | EmptyString => EmptyString
  | String c t => String (f c) (map_chars f t)
  end.

(** [s.upper()] and [s.lower()]. *)
Definition upper : string -> string := map_chars upper_char.
Definition lower : string -> string := map_chars lower_char.

Fixpoint lstrip (s : string) : string :=
  match s with
  | EmptyString => EmptyString
  | String c t => if is_space c then lstrip t else s
  end.

Fixpoint rstrip (s : string) : string :=
  match s with
  | EmptyString => EmptyString
  | String c t =>
      match rstrip t with
      | EmptyString => if is_space c then EmptyString else String c EmptyString
      | t' => String c t'
      end
  end.

(** [s.strip()]. *)
Definition strip (s : string) : string := rstrip (lstrip s).

(** [needle in hay]. *)
Fixpoint str_in (needle hay : string) : bool :=
  String.prefix needle hay ||
  match hay with
  | EmptyString => false
  | String _ t => str_in needle t
  end.

(** Truthiness of a [str]: the empty string is falsy. *)
Definition truthy (s : string) : bool :=
  match s with EmptyString => false | String _ _ => true end.

(** Containment ignoring case, in the words of the specification. *)
Definition contains_ignoring_case (needle hay : string) : bool :=
  str_in (upper needle) (upper hay).

End Text.

(** ** Python values of the feed *)

Module Py.

(** [x or 0] on an optional JSON number: [None] and zero are falsy. *)
Definition or_zero (x : option Q) : Q :=
  match x with
  | Some q => if Qeq_bool q 0 then 0%Q else q
  | None => 0%Q
  end.

(** [x or ""] on an optional JSON string. *)
Definition or_empty (x : option string) : string :=
  match x with
  | Some s => if Text.truthy s then s else EmptyString
  | None => EmptyString
  end.

(** [x or []] on an optional JSON array. *)
Definition or_nil {A : Type} (x : option (list A)) : list A :=
  match x with
  | Some ((_ :: _) as l) => l
  | _ => []
  end.

(** [d.get(key, default)]: the default is used when the key is absent. *)
Definition get {A : Type} (x : option A) (default : A) : A :=
  match x with Some v => v | None => default end.

(** [x < y] and the chained comparison [a <= x <= b] on numbers. *)
Definition Qlt_bool (x y : Q) : bool := negb (Qle_bool y x).
Definition between (a x b : Q) : bool := Qle_bool a x && Qle_bool x b.

End Py.

(** ** The raw state-vector feed (OpenSky layout) *)

Module Feed.

(** One state tuple [s]; only the positions the handlers read. *)
Record state_vector : Type := {
  sv_icao24 : string;                 (* s[0] *)
  sv_callsign : option string;        (* s[1] *)
  sv_origin_country : string;         (* s[2] *)
  sv_lon : option Q;                  (* s[5] *)
  sv_lat : option Q;                  (* s[6] *)
  sv_baro_altitude : option Q;        (* s[7] *)
  sv_velocity : option Q;             (* s[9] *)
  sv_heading : option Q               (* s[10] *)
}.

(** The decoded response of [fetch_opensky_states]: [time] may be absent,
    [states] may be absent or [null]. *)
Record response : Type := {
  time : option Z;
  states : option (list state_vector)
}.

End Feed.

Import Feed.

(** ** Tables *)

Module Db.

(** A row of [airports]. *)
Record airport : Type := {
  ap_code : string;
  ap_name : string;
  ap_city : string;
  ap_country : string;
  ap_lat : Q;
  ap_lon : Q
}.

(** A row of [flight_snapshots] (the autoincrement [id] is the position). *)
Record snapshot : Type := {
  snap_icao24 : string;
  snap_callsign : string;
  snap_lat : Q;
  snap_lon : Q;
  snap_altitude : Q;
  snap_velocity : Q;
  snap_timestamp : Z
}.

(** [SELECT * FROM airports WHERE code = ?] followed by [fetchone()]. *)
Definition airport_by_code (airports : list airport) (code : string)
  : option airport :=
  List.find (fun a => String.eqb (ap_code a) code) airports.

End Db.

Import Db.

(** ** Live flights: [api_flights_live] *)

Module Live.

Record bounds : Type := {
  min_lat : Q;
  max_lat : Q;
  min_lon : Q;
  max_lon : Q
}.

Definition REGION_BOUNDS : bounds :=
  {| min_lat := 5; max_lat := 35; min_lon := 68; max_lon := 97 |}.

(** An element of [flights]. *)
Record flight : Type := {
  fl_icao24 : string;
  fl_callsign : string;
  fl_origin_country : string;
  fl_lat : Q;
  fl_lon : Q;
  fl_altitude : Q;
  fl_velocity : Q;
  fl_heading : Q;
  fl_timestamp : Z
}.

(** [bounds["min_lat"] <= lat <= bounds["max_lat"] and
     bounds["min_lon"] <= lon <= bounds["max_lon"]] *)
Definition in_bounds (b : bounds) (lat lon : Q) : bool :=
  Py.between (min_lat b) lat (max_lat b) && Py.between (min_lon b) lon (max_lon b).

(** One iteration of [for s in states]; each [continue] leaves [flights]
    as it is. *)
Definition live_step (b : bounds) (min_alt max_alt : Q)
    (callsign_search : string) (ts : Z)
    (flights : list flight) (s : state_vector) : list flight :=
  let icao24 := sv_icao24 s in
  let callsign := Text.strip (Py.or_empty (sv_callsign s)) in
  let origin_country := sv_origin_country s in
  let altitude := Py.or_zero (sv_baro_altitude s) in
  let velocity := Py.or_zero (sv_velocity s) in
  let heading := Py.or_zero (sv_heading s) in
  match sv_lat s, sv_lon s with
  | Some lat, Some lon =>
      if negb (in_bounds b lat lon) then flights
      else if negb (Py.between min_alt altitude max_alt) then flights
      else if Text.truthy callsign_search
              && negb (Text.str_in callsign_search callsign) then flights
      else flights ++
           [ {| fl_icao24 := icao24; fl_callsign := callsign;
                fl_origin_country := origin_country;
                fl_lat := lat; fl_lon := lon; fl_altitude := altitude;
                fl_velocity := velocity; fl_heading := heading;
                fl_timestamp := ts |} ]
  | _, _ => flights
  end.

Definition live_flights (b : bounds) (min_alt max_alt : Q)
    (callsign_search : string) (ts : Z) (states : list state_vector)
  : list flight :=
  fold_left (live_step b min_alt max_alt callsign_search ts) states [].

(** The tuple bound by the [INSERT INTO flight_snapshots] statement. *)
Definition snapshot_row (f : flight) : snapshot :=
  {| snap_icao24 := fl_icao24 f; snap_callsign := fl_callsign f;
     snap_lat := fl_lat f; snap_lon := fl_lon f;
     snap_altitude := fl_altitude f; snap_velocity := fl_velocity f;
     snap_timestamp := fl_timestamp f |}.

(** [for f in flights[:100]: cur.execute(INSERT ...)] *)
Definition store_snapshots (flights : list flight) (table : list snapshot)
  : list snapshot :=
  fold_left (fun rows f => rows ++ [snapshot_row f]) (firstn 100 flights) table.

(** The query parameters [min_alt], [max_alt] and [callsign], each
    possibly absent. *)
Record args : Type := {
  arg_min_alt : option Q;
  arg_max_alt : option Q;
  arg_callsign : option string
}.

Record result : Type := {
  count : nat;
  flights : list flight
}.

(** The handler: [now] is the clock reading used when the feed carries no
    [time]; [data] is what [fetch_opensky_states] returned; the second
    component is [flight_snapshots] after the commit. *)
Definition api_flights_live (now : Z) (a : args) (data : response)
    (table : list snapshot) : result * list snapshot :=
  let min_alt := Py.get (arg_min_alt a) 0%Q in
  let max_alt := Py.get (arg_max_alt a) 50000%Q in
  let callsign_search := Text.upper (Text.strip (Py.get (arg_callsign a) EmptyString)) in
  let b := REGION_BOUNDS in
  let sts := Py.or_nil (states data) in
  let ts := Py.get (time data) now in
  let fls := live_flights b min_alt max_alt callsign_search ts sts in
  ({| count := List.length fls; flights := fls |}, store_snapshots fls table).

(** The two stages the specification names, for comparison with the loop:
    [parse_state] is the record the loop body builds from [s] (none
    without a position), [region_filter] keeps the records that pass the
    three tests. *)
Definition parse_state (ts : Z) (s : state_vector) : option flight :=
  match sv_lat s, sv_lon s with
  | Some lat, Some lon =>
      Some {| fl_icao24 := sv_icao24 s;
              fl_callsign := Text.strip (Py.or_empty (sv_callsign s));
              fl_origin_country := sv_origin_country s;
              fl_lat := lat; fl_lon := lon;
              fl_altitude := Py.or_zero (sv_baro_altitude s);
              fl_velocity := Py.or_zero (sv_velocity s);
              fl_heading := Py.or_zero (sv_heading s);
              fl_timestamp := ts |}
  | _, _ => None
  end.

Definition keeps (b : bounds) (min_alt max_alt : Q) (callsign_search : string)
    (f : flight) : bool :=
  in_bounds b (fl_lat f) (fl_lon f)
  && Py.between min_alt (fl_altitude f) max_alt
  && (negb (Text.truthy callsign_search)
      || Text.str_in callsign_search (fl_callsign f)).

Definition region_filter (b : bounds) (min_alt max_alt : Q)
    (callsign_search : string) (records : list flight) : list flight :=
  List.filter (keeps b min_alt max_alt callsign_search) records.

End Live.

(** ** Congestion statistics: [api_stats_summary] *)

Module Stats.

Inductive level : Type := LOW | MEDIUM | HIGH.

(** [SELECT COUNT( * ) FROM flight_snapshots WHERE timestamp >= ?] *)
Definition count_since (threshold : Z) (table : list snapshot) : nat :=
  List.length (List.filter (fun r => (threshold <=? snap_timestamp r)%Z) table).

Definition congestion (count_recent : nat) : level :=
  if (count_recent <? 50)%nat then LOW
  else if (count_recent <? 150)%nat then MEDIUM
  else HIGH.

(** [timestamp/3600] in SQLite: division of two integers truncates toward
    zero. *)
Definition hour_bucket (r : snapshot) : Z := Z.quot (snap_timestamp r) 3600.

(** Aggregation step of [GROUP BY hour_bucket ... ORDER BY hour_bucket
    DESC] with [COUNT( * )]: the groups are kept in descending order of
    their key; a row joins its group or opens a new one. *)
Fixpoint add_to_group (h : Z) (groups : list (Z * nat)) : list (Z * nat) :=
  match groups with
  | [] => [(h, 1%nat)]
  | (k, c) :: rest =>
      if (h =? k)%Z then (k, S c) :: rest
      else if (k <? h)%Z then (h, 1%nat) :: groups
      else (k, c) :: add_to_group h rest
  end.

Definition group_by_hour (table : list snapshot) : list (Z * nat) :=
  fold_left (fun groups r => add_to_group (hour_bucket r) groups) table [].

(** The grouped query with [LIMIT limit]. *)
Definition hourly_buckets (limit : nat) (table : list snapshot)
  : list (Z * nat) :=
  firstn limit (group_by_hour table).

Record summary : Type := {
  recent_snapshot_count : nat;
  congestion_level : level;
  flights_per_hour : list (Z * nat)       (* pairs (hour, count) *)
}.

Definition api_stats_summary (now : Z) (table : list snapshot) : summary :=
  let ten_min_ago := (now - 600)%Z in
  let count_recent := count_since ten_min_ago table in
  {| recent_snapshot_count := count_recent;
     congestion_level := congestion count_recent;
     flights_per_hour := hourly_buckets 24 table |}.

(** Measures used to state what the grouped query returns: the number of
    rows of an hour, the count the groups record for an hour, and the
    order of the groups. *)
Definition rows_in_hour (h : Z) (table : list snapshot) : nat :=
  List.length (List.filter (fun r => (hour_bucket r =? h)%Z) table).

Fixpoint recorded (h : Z) (groups : list (Z * nat)) : nat :=
  match groups with
  | [] => 0%nat
  | (k, c) :: rest => ((if (k =? h)%Z then c else 0) + recorded h rest)%nat
  end.

Definition descending (groups : list (Z * nat)) : Prop :=
  StronglySorted (fun p q => (fst q < fst p)%Z) groups.

End Stats.

(** ** The outside world of the handlers *)

Module Http.

(** A raw weather observation: [weather[0].main], [weather[0].description],
    [wind.speed] and [main.temp]. *)
Record observation : Type := {
  weather_main : string;
  weather_description : string;
  wind_speed : Q;
  main_temp : Q
}.

(** What a handler can reach: the environment variable, the weather
    provider (its body may be falsy, [None]) and the feed. *)
Record world : Type := {
  OPENWEATHER_API_KEY : option string;
  openweather : Q -> Q -> string -> option observation;
  opensky : response
}.

(** Outgoing requests, recorded in the order they are made. *)
Inductive call : Type :=
| OpenWeatherCall (lat lon : Q) (key : string)
| OpenSkyCall.

(** A handler's answer: [jsonify({"error": msg}), status] or a payload. *)
Inductive reply (A : Type) : Type :=
| Error (status : nat) (message : string)
| Ok (body : A).

Arguments Error {A} status message.
Arguments Ok {A} body.

Definition NotFound {A : Type} : reply A := Error 404 "Unknown airport".
Definition Unconfigured {A : Type} : reply A := Error 500 "Weather API not configured".

(** [fetch_openweather(lat, lon)]: no request is made without a key. *)
Definition fetch_openweather (w : world) (lat lon : Q)
  : option observation * list call :=
  match OPENWEATHER_API_KEY w with
  | Some key =>
      if Text.truthy key
      then (openweather w lat lon key, [OpenWeatherCall lat lon key])
      else (None, [])
  | None => (None, [])
  end.

(** [fetch_opensky_states()] *)
Definition fetch_opensky_states (w : world) : response * list call :=
  (opensky w, [OpenSkyCall]).

End Http.

Import Http.

(** ** Weather risk: [api_airport_weather] *)

Module Weather.

Inductive risk_level : Type := LOW | MODERATE | HIGH.

(** The risk mapping on [weather["weather"][0]["main"]] and
    [weather["wind"]["speed"]]. *)
Definition risk (condition : string) (wind : Q) : risk_level :=
  let main := Text.lower condition in
  if Text.str_in "storm" main || Text.str_in "thunder" main
     || Py.Qlt_bool 15 wind then HIGH
  else if Text.str_in "rain" main || Text.str_in "fog" main then MODERATE
  else LOW.

Record body : Type := {
  w_airport : string;
  w_name : string;
  w_city : string;
  w_country : string;
  w_temp : Q;
  w_condition : string;
  w_wind_speed : Q;
  w_risk : risk_level
}.

Definition api_airport_weather (w : world) (airports : list airport)
    (code : string) : reply body * list call :=
  match airport_by_code airports (Text.upper code) with
  | None => (NotFound, [])
  | Some ap =>
      let '(weather, calls) := fetch_openweather w (ap_lat ap) (ap_lon ap) in
      match weather with
      | None => (Unconfigured, calls)
      | Some obs =>
          let wind := wind_speed obs in
          (Ok {| w_airport := ap_code ap; w_name := ap_name ap;
                 w_city := ap_city ap; w_country := ap_country ap;
                 w_temp := main_temp obs;
                 w_condition := weather_description obs;
                 w_wind_speed := wind;
                 w_risk := risk (weather_main obs) wind |}, calls)
      end
  end.

End Weather.

(** ** Great-circle distance *)

Module Geo.

Local Open Scope R_scope.

(** The haversine formula over the real numbers: the quantity that
    [haversine] of [api_airport_traffic] approximates in floating
    point. *)
Definition radians (x : R) : R := x * (PI / 180).

Definition haversine (lat1 lon1 lat2 lon2 : R) : R :=
  let R := 6371 in
  let dlat := radians (lat2 - lat1) in
  let dlon := radians (lon2 - lon1) in
  let a := sin (dlat / 2) ^ 2
           + cos (radians lat1) * cos (radians lat2) * sin (dlon / 2) ^ 2 in
  let c := 2 * asin (sqrt a) in
  R * c.

End Geo.

(** ** Python floats *)

Module Double.

(** A Python [float] is an IEEE 754 binary64 number; a finite one is the
    rational it denotes. The arithmetic operations return the exact
    result rounded to the nearest such number, ties to even. The two
    zeros are one number here, and overflow is outside the model. *)

Definition pow2 (e : Z) : Q :=
  if (0 <=? e)%Z then inject_Z (2 ^ e) else 1 # Z.to_pos (2 ^ (- e)).

(** [floor (log2 (n / d))] *)
Definition ilog2 (n d : positive) : Z :=
  let k := (Z.log2 (Zpos n) - Z.log2 (Zpos d))%Z in
  if Qle_bool (pow2 k) (Zpos n # d) then k else (k - 1)%Z.

(** The nearest integer, ties to even. *)
Definition round_half_even (x : Q) : Z :=
  let f := Qfloor x in
  match (x - inject_Z f ?= 1 # 2)%Q with
  | Lt => f
  | Gt => (f + 1)%Z
  | Eq => if Z.even f then f else (f + 1)%Z
  end.

(** The nearest binary64 number to [n / d]: 53 significant bits, or a
    multiple of [2 ^ -1074] for subnormal numbers. *)
Definition round_pos (n d : positive) : Q :=
  let e := Z.max (ilog2 n d - 52) (-1074) in
  inject_Z (round_half_even ((Zpos n # d) / pow2 e)) * pow2 e.

Definition round (x : Q) : Q :=
  match Qnum x with
  | Z0 => 0
  | Zpos n => round_pos n (Qden x)
  | Zneg n => - round_pos n (Qden x)
  end.

(** [x + y], [x - y], [x * y] and [x / y] on floats. *)
Definition add (x y : Q) : Q := round (x + y).
Definition sub (x y : Q) : Q := round (x - y).
Definition mul (x y : Q) : Q := round (x * y).
Definition div (x y : Q) : Q := round (x / y).

(** The builtin [round(x, 1)]: the decimal with one digit nearest to [x],
    ties to even, as a float. *)
Definition py_round1 (x : Q) : Q :=
  round (inject_Z (round_half_even (x * 10)) / 10).

End Double.

(** ** Exceptions *)

Module Exn.

Inductive exception : Type := ValueError.

(** A computation that returns a value or raises. *)
Inductive py (A : Type) : Type :=
| Return (a : A)
| Raise (e : exception).

Arguments Return {A} a.
Arguments Raise {A} e.

Definition bind {A B : Type} (c : py A) (k : A -> py B) : py B :=
  match c with
  | Return a => k a
  | Raise e => Raise e
  end.

End Exn.

Import Exn.

Notation "x <- c ;; k" := (Exn.bind c (fun x => k))
  (at level 100, c at next level, right associativity).

(** ** The [math] module *)

Module Math.

(** The functions of the C library that [math] calls. What they return
    is the platform's, so they are taken as given. *)
Record libm : Type := {
  c_sin : Q -> Q;
  c_cos : Q -> Q;
  c_asin : Q -> Q;
  c_sqrt : Q -> Q;
  c_pow : Q -> Q -> Q
}.

(** The float [pi / 180] of [math.radians]. *)
Definition degToRad : Q := 5030569068109113 # 288230376151711744.

Section Functions.

Variable m : libm.

Definition radians (x : Q) : Q := Double.mul x degToRad.
Definition sin (x : Q) : Q := c_sin m x.
Definition cos (x : Q) : Q := c_cos m x.

(** [x ** y] on floats *)
Definition pow (x y : Q) : Q := c_pow m x y.

(** [math.sqrt] raises [ValueError] (math domain error) below 0, and
    [math.asin] outside [-1, 1]. *)
Definition sqrt (x : Q) : py Q :=
  if Py.Qlt_bool x 0 then Raise ValueError else Return (c_sqrt m x).

Definition asin (x : Q) : py Q :=
  if Py.Qlt_bool 1 (Qabs x) then Raise ValueError else Return (c_asin m x).

End Functions.

End Math.

(** ** Airport traffic: [api_airport_traffic] *)

Module Traffic.

(** An element of [arrivals], [departures] or [others]. *)
Record info : Type := {
  i_callsign : string;
  i_lat : Q;
  i_lon : Q;
  i_heading : Q;
  i_distance_km : Q
}.

Record buckets : Type := {
  arrivals : list info;
  departures : list info;
  others : list info
}.

Definition empty : buckets :=
  {| arrivals := []; departures := []; others := [] |}.


Section Handler.

Variable m : Math.libm.

(** The nested [haversine], in floating point. *)
Definition haversine (lat1 lon1 lat2 lon2 : Q) : py Q :=
  let R := 6371%Q in
  let dlat := Math.radians (Double.sub lat2 lat1) in
  let dlon := Math.radians (Double.sub lon2 lon1) in
  let a := Double.add
             (Math.pow m (Math.sin m (Double.div dlat 2)) 2)
             (Double.mul
                (Double.mul (Math.cos m (Math.radians lat1))
                            (Math.cos m (Math.radians lat2)))
                (Math.pow m (Math.sin m (Double.div dlon 2)) 2)) in
  s <- Math.sqrt m a ;;
  x <- Math.asin m s ;;
  let c := Double.mul 2 x in
  Return (Double.mul R c).

(** One iteration of [for s in states]; an exception raised by
    [haversine] leaves the loop and the handler. *)
Definition traffic_step (lat0 lon0 : Q) (acc : buckets) (s : state_vector)
  : py buckets :=
  let callsign := Text.strip (Py.or_empty (sv_callsign s)) in
  let heading := Py.or_zero (sv_heading s) in
  match sv_lat s, sv_lon s with
  | Some lat, Some lon =>
      dist <- haversine lat0 lon0 lat lon ;;
      if Qle_bool dist 100 then
        let i := {| i_callsign := callsign; i_lat := lat; i_lon := lon;
                    i_heading := heading;
                    i_distance_km := Double.py_round1 dist |} in
        if Py.Qlt_bool 30 dist && negb (Qeq_bool heading 0)
           && negb (Qeq_bool heading 360)
        then Return {| arrivals := arrivals acc ++ [i];
                       departures := departures acc; others := others acc |}
        else if Py.Qlt_bool dist 30
        then Return {| arrivals := arrivals acc;
                       departures := departures acc ++ [i];
                       others := others acc |}
        else Return {| arrivals := arrivals acc;
                       departures := departures acc;
                       others := others acc ++ [i] |}
      else Return acc
  | _, _ => Return acc
  end.

Definition classify (lat0 lon0 : Q) (sts : list state_vector) : py buckets :=
  fold_left (fun acc s => a <- acc ;; traffic_step lat0 lon0 a s) sts
            (Return empty).

Record body : Type := {
  t_airport : string;
  t_name : string;
  t_buckets : buckets
}.

Definition api_airport_traffic (w : world) (airports : list airport)
    (code : string) : py (reply body) * list call :=
  match airport_by_code airports (Text.upper code) with
  | None => (Return NotFound, [])
  | Some ap =>
      let lat0 := ap_lat ap in
      let lon0 := ap_lon ap in
      let '(data, calls) := fetch_opensky_states w in
      let sts := Py.or_nil (states data) in
      (r <- classify lat0 lon0 sts ;;
       Return (Ok {| t_airport := ap_code ap; t_name := ap_name ap;
                     t_buckets := r |}),
       calls)
  end.

(** The rule of the loop body read per record, used to state where a
    record goes: [info_of] is the entry built for a record at
    [(lat, lon)] whose computed distance is [dist], [verdict] is the
    branch taken for a distance and a heading, [single] is the loop body
    run on empty buckets, [merge] appends bucket by bucket. *)
Inductive bucket : Type := Arrivals | Departures | Others.

Definition bucket_of (k : bucket) (r : buckets) : list info :=
  match k with
  | Arrivals => arrivals r
  | Departures => departures r
  | Others => others r
  end.

Definition info_of (s : state_vector) (lat lon dist : Q) : info :=
  {| i_callsign := Text.strip (Py.or_empty (sv_callsign s));
     i_lat := lat; i_lon := lon;
     i_heading := Py.or_zero (sv_heading s);
     i_distance_km := Double.py_round1 dist |}.

Definition verdict (dist heading : Q) : option bucket :=
  if Qle_bool dist 100 then
    Some (if Py.Qlt_bool 30 dist && negb (Qeq_bool heading 0)
             && negb (Qeq_bool heading 360) then Arrivals
          else if Py.Qlt_bool dist 30 then Departures
          else Others)
  else None.

Definition single (lat0 lon0 : Q) (s : state_vector) : py buckets :=
  traffic_step lat0 lon0 empty s.

End Handler.

Definition merge (r r' : buckets) : buckets :=
  {| arrivals := arrivals r ++ arrivals r';
     departures := departures r ++ departures r';
     others := others r ++ others r' |}.

End Traffic.

(** ** Sample inputs *)

Module Samples.

Local Open Scope string_scope.

Definition vector (callsign : option string) (lat lon : option Q)
    (alt heading : option Q) : state_vector :=
  {| sv_icao24 := "800a01"; sv_callsign := callsign;
     sv_origin_country := "India"; sv_lon := lon; sv_lat := lat;
     sv_baro_altitude := alt; sv_velocity := Some 230%Q;
     sv_heading := heading |}.

(** A position inside the configured region, transmitted in lower case. *)
Definition lower_case_vector : state_vector :=
  vector (Some "abc1") (Some 10%Q) (Some 70%Q) (Some 1000%Q) (Some 90%Q).

(** The same position with the usual upper-case, padded callsign. *)
Definition padded_vector : state_vector :=
  vector (Some "AI101   ") (Some 10%Q) (Some 70%Q) (Some 1000%Q) (Some 90%Q).

Definition feed_of (sts : list state_vector) : response :=
  {| time := Some 1700000000%Z; states := Some sts |}.

Definition search (q : string) : Live.args :=
  {| Live.arg_min_alt := None; Live.arg_max_alt := None;
     Live.arg_callsign := Some q |}.

Definition row_at (t : Z) : snapshot :=
  {| snap_icao24 := "800a01"; snap_callsign := "AI101"; snap_lat := 10;
     snap_lon := 70; snap_altitude := 1000; snap_velocity := 230;
     snap_timestamp := t |}.

Definition BOM : airport :=
  {| ap_code := "BOM"; ap_name := "Chhatrapati Shivaji Maharaj Intl";
     ap_city := "Mumbai"; ap_country := "India";
     ap_lat := 190896 # 10000; ap_lon := 728656 # 10000 |}.

(** A record on the equator at longitude [lon], seen from an airport at
    latitude and longitude 0. *)
Definition on_equator (lon : Q) (heading : option Q) : state_vector :=
  vector (Some "AI101") (Some 0%Q) (Some lon) (Some 1000%Q) heading.

(** The C library as observed on CPython with glibc (x86-64), at the
    arguments that the sample positions below lead to; 0 elsewhere.
    There [x ** 2] equals the float product [x * x]. *)
Definition lookup (table : list (Q * Q)) (x : Q) : Q :=
  match List.find (fun p => Qeq_bool (fst p) x) table with
  | Some p => snd p
  | None => 0%Q
  end.

Definition sin_samples : list (Q * Q) :=
  [ (-884279719003555 # 562949953421312, -1 # 1);
    (-5066097493593691 # 4503599627370496,
     -8126514101433423 # 9007199254740992);
    (-5030569068109113 # 1152921504606846976,
     -2515276552817521 # 576460752303423488);
    (0 # 1, 0 # 1);
    (5428919343620375 # 2305843009213693952,
     5428914327946081 # 2305843009213693952);
    (5030569068109113 # 1152921504606846976,
     2515276552817521 # 576460752303423488);
    (4524099453016979 # 576460752303423488,
     2262026505859241 # 288230376151711744);
    (5030569068109113 # 576460752303423488,
     5030505218395169 # 576460752303423488) ]%Q.

Definition cos_samples : list (Q * Q) :=
  [ (-2533048762517373 # 2251799813685248,
     7769017063450125 # 18014398509481984);
    (0 # 1, 1 # 1);
    (5066097462152633 # 4503599627370496,
     971127161298151 # 2251799813685248) ]%Q.

Definition sqrt_samples : list (Q * Q) :=
  [ (0 # 1, 0 # 1);
    (818043154887045 # 147573952589676412928,
     5428914327946081 # 2305843009213693952);
    (1404790980686597 # 73786976294838206464,
     2515276552817521 # 576460752303423488);
    (4544599286413279 # 73786976294838206464,
     2262026505859241 # 288230376151711744);
    (2809528471237169 # 36893488147419103232,
     5030505218395169 # 576460752303423488);
    (2251799813685249 # 2251799813685248,
     4503599627370497 # 4503599627370496) ]%Q.

Definition asin_samples : list (Q * Q) :=
  [ (0 # 1, 0 # 1);
    (5428914327946081 # 2305843009213693952,
     5428919343620375 # 2305843009213693952);
    (2515276552817521 # 576460752303423488,
     5030569068109113 # 1152921504606846976);
    (2262026505859241 # 288230376151711744,
     4524099453016979 # 576460752303423488);
    (5030505218395169 # 576460752303423488,
     5030569068109113 # 576460752303423488) ]%Q.

Definition glibc : Math.libm :=
  {| Math.c_sin := lookup sin_samples;
     Math.c_cos := lookup cos_samples;
     Math.c_asin := lookup asin_samples;
     Math.c_sqrt := lookup sqrt_samples;
     Math.c_pow := fun x y => if Qeq_bool y 2 then Double.mul x x else 0%Q |}.

(** The floats 0.26979648177561916 and 0.8993216059187306: on the
    equator, the longitudes whose computed distance from longitude 0 is
    exactly 30.0 and 100.0 km. *)
Definition lon_30_km : Q := 4860221339162197 # 18014398509481984.
Definition lon_100_km : Q := 4050184449301831 # 4503599627370496.

(** Five records on the equator, seen from latitude and longitude 0: at
    the airport, at 55.6 km, at exactly 30 km, at exactly 100 km without
    a heading, and at 111.2 km. *)
Definition equator_feed : list state_vector :=
  [ on_equator 0 (Some 90%Q);
    on_equator (1 # 2) (Some 90%Q);
    on_equator lon_30_km (Some 90%Q);
    on_equator lon_100_km None;
    on_equator 1 (Some 90%Q) ].

(** An airport at (64.452, 111.099) and a record at (-64.4520008,
    -68.901), close to its antipode, with these floats as rationals. *)
Definition far_airport : airport :=
  {| ap_code := "FAR"; ap_name := "Far"; ap_city := "Far";
     ap_country := "Russia";
     ap_lat := 283462893733675 # 4398046511104;
     ap_lon := 7817897109394293 # 70368744177664 |}.

Definition antipodal_vector : state_vector :=
  vector (Some "AI202") (Some (-4535406356033795 # 70368744177664)%Q)
         (Some (-4848476842585227 # 70368744177664)%Q) (Some 10000%Q)
         (Some 90%Q).

End Samples.

(** ** Route lookup: [api_routes] *)

Module Routes.

Record stats : Type := {
  r_origin : string;
  r_dest : string;
  r_avg_speed : Z;
  r_avg_altitude : Z;
  r_estimated_daily_flights : Z
}.

Record body : Type := {
  route : stats;
  origin_coords : Q * Q;       (* lat, lon *)
  dest_coords : Q * Q
}.

(** The query parameters [origin] and [dest], each possibly absent. *)
Definition api_routes (airports : list airport)
    (origin_arg dest_arg : option string) : reply body :=
  let origin := Text.upper (Py.get origin_arg EmptyString) in
  let dest := Text.upper (Py.get dest_arg EmptyString) in
  if negb (Text.truthy origin) || negb (Text.truthy dest)
  then Error 400 "origin and dest required"
  else
    let o := airport_by_code airports origin in
    let d := airport_by_code airports dest in
    match o, d with
    | Some o, Some d =>
        Ok {| route := {| r_origin := origin; r_dest := dest;
                          r_avg_speed := 800; r_avg_altitude := 35000;
                          r_estimated_daily_flights := 20 |};
              origin_coords := (ap_lat o, ap_lon o);
              dest_coords := (ap_lat d, ap_lon d) |}
    | _, _ => Error 404 "Unknown origin/dest"
    end.

End Routes.

(** ** Sessions: [login_required], [index], [login], [logout] *)

Module Auth.

(** A row of [users]. *)
Record user : Type := {
  u_id : Z;
  u_name : string;
  u_email : string;
  u_password_hash : string;
  u_role : string
}.

(** The two keys the application keeps in the Flask session. *)
Record session : Type := {
  user_id : option Z;
  user_name : option string
}.

(** [session.clear()] *)
Definition cleared : session := {| user_id := None; user_name := None |}.

(** What a view returns: a redirect to an endpoint, a rendered template
    with its optional [error], or the value of an API view. *)
Inductive answer (A : Type) : Type :=
| Redirect (endpoint : string)
| Render (template : string) (error : option string)
| Value (a : A).

Arguments Redirect {A} endpoint.
Arguments Render {A} template error.
Arguments Value {A} a.

(** The decorator: the view is a thunk, run only with [user_id] in the
    session. *)
Definition login_required {A : Type} (view : unit -> answer A) (s : session)
  : answer A :=
  match user_id s with
  | None => Redirect "login"
  | Some _ => view tt
  end.

Definition index (s : session) : answer unit :=
  match user_id s with
  | Some _ => Redirect "dashboard"
  | None => Redirect "login"
  end.

Definition dashboard : session -> answer unit :=
  login_required (fun _ => Render "dashboard.html" None).

Definition analytics : session -> answer unit :=
  login_required (fun _ => Render "analytics.html" None).

Definition logout (s : session) : answer unit * session :=
  (Redirect "login", cleared).

(** [SELECT * FROM users WHERE email = ?] followed by [fetchone()]. *)
Definition user_by_email (users : list user) (email : string) : option user :=
  List.find (fun u => String.eqb (u_email u) email) users.

Inductive http_method : Type := GET | POST.

(** [request.form]: the fields [email] and [password], each possibly
    absent. *)
Record form : Type := {
  f_email : option string;
  f_password : option string
}.

Section Hashing.

(** [hashlib.sha256(pwd.encode()).hexdigest()], left abstract. *)
Variable sha256_hexdigest : string -> string.

Definition hash_password (pwd : string) : string := sha256_hexdigest pwd.

Definition check_password (pwd hash_value : string) : bool :=
  String.eqb (hash_password pwd) hash_value.

Definition login (m : http_method) (f : form) (users : list user)
    (s : session) : answer unit * session :=
  match m with
  | POST =>
      let email := Text.strip (Py.get (f_email f) EmptyString) in
      let password := Py.get (f_password f) EmptyString in
      match user_by_email users email with
      | Some u =>
          if check_password password (u_password_hash u)
          then (Redirect "dashboard",
                {| user_id := Some (u_id u); user_name := Some (u_name u) |})
          else (Render "login.html" (Some "Invalid credentials"%string), s)
      | None => (Render "login.html" (Some "Invalid credentials"%string), s)
      end
  | GET => (Render "login.html" None, s)
  end.

End Hashing.

(** A decorated view whose value comes with an effect (the table after
    the commit, or the outgoing requests): when the decorator answers
    instead of the view, the effect is [unchanged]. *)
Definition with_effect {A E : Type} (unchanged : E) (r : answer (A * E))
  : answer A * E :=
  match r with
  | Value (a, e) => (Value a, e)
  | Redirect endpoint => (Redirect endpoint, unchanged)
  | Render template error => (Render template error, unchanged)
  end.

(** The route [/api/flights/live]: the handler under the decorator. *)
Definition flights_live_route (s : session) (now : Z) (a : Live.args)
    (data : response) (table : list snapshot)
  : answer Live.result * list snapshot :=
  with_effect table
    (login_required
       (fun _ => Value (Live.api_flights_live now a data table)) s).

(** The routes [/api/airports/<code>/weather] and
    [/api/airports/<code>/traffic] under the decorator. *)
Definition airport_weather_route (s : session) (w : world)
    (airports : list airport) (code : string)
  : answer (reply Weather.body) * list call :=
  with_effect []
    (login_required
       (fun _ => Value (Weather.api_airport_weather w airports code)) s).

Definition airport_traffic_route (m : Math.libm) (s : session) (w : world)
    (airports : list airport) (code : string)
  : answer (py (reply Traffic.body)) * list call :=
  with_effect []
    (login_required
       (fun _ => Value (Traffic.api_airport_traffic m w airports code)) s).

End Auth.

(** ** Start-up: [init_db] *)

Module Setup.

Import Auth.

Record database : Type := {
  users : list user;
  airports : list airport;
  flight_snapshots : list snapshot
}.

(** The value of an [INTEGER PRIMARY KEY AUTOINCREMENT] column for a new
    row: one more than the largest id in use (no row is ever deleted). *)
Definition next_id (us : list user) : Z :=
  (1 + fold_right Z.max 0 (map u_id us))%Z.

Definition sample_airports : list airport :=
  [ {| ap_code := "BOM"; ap_name := "Chhatrapati Shivaji Maharaj Intl";
       ap_city := "Mumbai"; ap_country := "India";
       ap_lat := 190896 # 10000; ap_lon := 728656 # 10000 |};
    {| ap_code := "DEL"; ap_name := "Indira Gandhi Intl";
       ap_city := "Delhi"; ap_country := "India";
       ap_lat := 285562 # 10000; ap_lon := 771000 # 10000 |};
    {| ap_code := "BLR"; ap_name := "Kempegowda Intl";
       ap_city := "Bengaluru"; ap_country := "India";
       ap_lat := 131989 # 10000; ap_lon := 777063 # 10000 |};
    {| ap_code := "HYD"; ap_name := "Rajiv Gandhi Intl";
       ap_city := "Hyderabad"; ap_country := "India";
       ap_lat := 172403 # 10000; ap_lon := 784294 # 10000 |} ].

Section Hashing.

Variable sha256_hexdigest : string -> string.

(** The tables exist after [CREATE TABLE IF NOT EXISTS]; the default
    admin is inserted unless its email is taken; the sample airports are
    inserted into an empty [airports]. *)
Definition init_db (db : database) : database :=
  let us :=
    match user_by_email (users db) "admin@example.com" with
    | Some _ => users db
    | None =>
        let pwd_hash := hash_password sha256_hexdigest "admin123" in
        users db ++
        [ {| u_id := next_id (users db); u_name := "Admin";
             u_email := "admin@example.com"; u_password_hash := pwd_hash;
             u_role := "admin" |} ]
    end in
  let aps :=
    if (List.length (airports db) =? 0)%nat
    then airports db ++ sample_airports
    else airports db in
  {| users := us; airports := aps; flight_snapshots := flight_snapshots db |}.

End Hashing.

End Setup.

(** ** Measures used to state further properties *)

Module Measure.

(** Severity order of the congestion levels and of the weather risks. *)
Definition level_rank (l : Stats.level) : nat :=
  match l with Stats.LOW => 0 | Stats.MEDIUM => 1 | Stats.HIGH => 2 end.

Definition risk_rank (r : Weather.risk_level) : nat :=
  match r with Weather.LOW => 0 | Weather.MODERATE => 1 | Weather.HIGH => 2 end.

(** Total of the counts of a list of [(hour, count)] pairs. *)
Definition total (groups : list (Z * nat)) : nat :=
  fold_right (fun p n => (snd p + n)%nat) 0%nat groups.

(** A state vector carries a position when both coordinates are given. *)
Definition has_position (s : state_vector) : bool :=
  match sv_lat s, sv_lon s with
  | Some _, Some _ => true
  | _, _ => false
  end.

(** The exact value [a] of the haversine formula, whose square root and
    arcsine are taken. *)
Definition haversine_a (lat1 lon1 lat2 lon2 : R) : R :=
  (sin (Geo.radians (lat2 - lat1) / 2) ^ 2
   + cos (Geo.radians lat1) * cos (Geo.radians lat2)
     * sin (Geo.radians (lon2 - lon1) / 2) ^ 2)%R.

(** The value [a] as [haversine] computes it in floating point. *)
Definition computed_a (m : Math.libm) (lat1 lon1 lat2 lon2 : Q) : Q :=
  let dlat := Math.radians (Double.sub lat2 lat1) in
  let dlon := Math.radians (Double.sub lon2 lon1) in
  Double.add
    (Math.pow m (Math.sin m (Double.div dlat 2)) 2)
    (Double.mul
       (Double.mul (Math.cos m (Math.radians lat1))
                   (Math.cos m (Math.radians lat2)))
       (Math.pow m (Math.sin m (Double.div dlon 2)) 2)).

End Measure.

(** * Properties *)

(** ** The handlers on sample inputs *)

Section Examples.

Local Open Scope string_scope.

Example or_zero_ex :
  Py.or_zero None = 0%Q /\ Py.or_zero (Some (0 # 5)) = 0%Q
  /\ Py.or_zero (Some (7 # 2)) = (7 # 2)%Q.
Proof. repeat split; reflexivity. Qed.

Example or_nil_ex :
  Py.or_nil (@None (list nat)) = [] /\ Py.or_nil (Some [1; 2]%nat) = [1; 2]%nat.
Proof. split; reflexivity. Qed.

(** A padded upper-case callsign is found by a lower-case search; a
    record without a latitude and one outside the region are dropped. *)
Example api_flights_live_ex :
  Live.api_flights_live 0 (Samples.search "ai1")
    (Samples.feed_of
       [ Samples.vector (Some "AI202") None (Some 70%Q) None None;
         Samples.padded_vector;
         Samples.vector (Some "AI303") (Some 50%Q) (Some 70%Q) None None ])
    []
  = ({| Live.count := 1;
        Live.flights :=
          [ Live.Build_flight "800a01" "AI101" "India" 10 70 1000 230 90
              1700000000 ] |},
     [ Build_snapshot "800a01" "AI101" 10 70 1000 230 1700000000 ]).
Proof. reflexivity. Qed.

Example hourly_buckets_ex :
  Stats.group_by_hour
    (map Samples.row_at [7200; 3600; 3601; 0; 7300]%Z)
  = [(2%Z, 2%nat); (1%Z, 2%nat); (0%Z, 1%nat)]
  /\ Stats.hourly_buckets 2
       (map Samples.row_at [7200; 3600; 3601; 0; 7300]%Z)
     = [(2%Z, 2%nat); (1%Z, 2%nat)].
Proof. split; reflexivity. Qed.

Example count_since_ex :
  Stats.count_since (1000 - 600)
    (map Samples.row_at [399; 400; 401; 1000]%Z) = 3%nat.
Proof. reflexivity. Qed.

Example api_airport_weather_ex :
  let w := {| OPENWEATHER_API_KEY := Some "k";
              openweather := fun _ _ _ =>
                Some (Build_observation "Rain" "light rain" 4 29);
              opensky := Samples.feed_of [] |} in
  Weather.api_airport_weather w [Samples.BOM] "bom"
  = (Ok (Weather.Build_body "BOM" "Chhatrapati Shivaji Maharaj Intl"
           "Mumbai" "India" 29 "light rain" 4 Weather.MODERATE),
     [OpenWeatherCall (190896 # 10000) (728656 # 10000) "k"]).
Proof. reflexivity. Qed.

(** 0.1, 0.1 + 0.2 = 0.30000000000000004, ties above [2 ^ 53], 1 / 3 and
    the smallest subnormal number. *)
Example double_round_ex :
  (Double.round (1 # 10) == 3602879701896397 # 36028797018963968)%Q
  /\ (Double.add (Double.round (1 # 10)) (Double.round (2 # 10))
      == 1351079888211149 # 4503599627370496)%Q
  /\ ~ (Double.add (Double.round (1 # 10)) (Double.round (2 # 10))
        == Double.round (3 # 10))%Q
  /\ (Double.round (inject_Z (2 ^ 53 + 1)) == inject_Z (2 ^ 53))%Q
  /\ (Double.round (inject_Z (2 ^ 53 + 3)) == inject_Z (2 ^ 53 + 4))%Q
  /\ (Double.div 1 3 == 6004799503160661 # 18014398509481984)%Q
  /\ (Double.round (Double.pow2 (-1074) * (3 # 2))
      == Double.pow2 (-1073))%Q
  /\ (Double.round (Double.pow2 (-1074) * (1 # 2)) == 0)%Q.
Proof. repeat split; vm_compute; congruence. Qed.

(** [round(0.25, 1) == 0.2], [round(0.35, 1) == 0.3],
    [round(0.45, 1) == 0.5], [round(55.59746332227937, 1) == 55.6]. *)
Example py_round1_ex :
  (Double.py_round1 (1 # 4) == Double.round (2 # 10))%Q
  /\ (Double.py_round1 (Double.round (35 # 100)) == Double.round (3 # 10))%Q
  /\ (Double.py_round1 (Double.round (45 # 100)) == 1 # 2)%Q
  /\ (Double.py_round1 (1956161836726267 # 35184372088832)
      == 7825004352556237 # 140737488355328)%Q.
Proof. repeat split; vm_compute; reflexivity. Qed.

Example radians_ex :
  (Math.radians 1 == Math.degToRad)%Q
  /\ (Math.radians (1 # 2) == 5030569068109113 # 576460752303423488)%Q.
Proof. split; vm_compute; reflexivity. Qed.

(** The five sample distances on the equator: 0.0, 55.59746332227937,
    30.0, 100.0 and 111.19492664455873 km. *)
Example haversine_ex :
  map (Traffic.haversine Samples.glibc 0 0 0)
      [0%Q; 1 # 2; Samples.lon_30_km; Samples.lon_100_km; 1%Q]
  = map (fun d => Return (Double.round d))
      [0%Q; 1956161836726267 # 35184372088832; 30%Q; 100%Q;
       1956161836726267 # 17592186044416].
Proof. vm_compute. reflexivity. Qed.

(** The sample feed: the record at 55.6 km is an arrival, the one at the
    airport a departure, those at exactly 30 km and at exactly 100 km
    without heading are others, the one at 111.2 km is left out. *)
Example classify_ex :
  match Traffic.classify Samples.glibc 0 0 Samples.equator_feed with
  | Return r =>
      map Traffic.i_lon (Traffic.arrivals r) = [1 # 2]
      /\ map Traffic.i_lon (Traffic.departures r) = [0%Q]
      /\ map Traffic.i_lon (Traffic.others r)
         = [Samples.lon_30_km; Samples.lon_100_km]
  | Raise _ => False
  end.
Proof. vm_compute. repeat split. Qed.

End Examples.

(** ** Text *)

Section TextFacts.

Import Text.
Local Open Scope string_scope.

Example strip_ex : strip "  AI 101 " = "AI 101".
Proof. reflexivity. Qed.

Example upper_ex : upper "ai-1z{`" = "AI-1Z{`".
Proof. reflexivity. Qed.

Example lower_ex : lower "Thunderstorm" = "thunderstorm".
Proof. reflexivity. Qed.

Example str_in_ex : str_in "storm" "thunderstorm" = true /\ str_in "" "" = true
                    /\ str_in "fog" "rain" = false.
Proof. repeat split; reflexivity. Qed.

Lemma prefix_app (n rest : string) : String.prefix n (n ++ rest) = true.
Proof.
  induction n as [|c n IH]; simpl.
  - by destruct rest.
  - destruct (Ascii.ascii_dec c c); [exact IH | congruence].
Qed.

Lemma prefix_split (n h : string) :
  String.prefix n h = true -> exists rest, h = n ++ rest.
Proof.
  revert h; induction n as [|c n IH]; intros h Hp.
  - by exists h.
  - destruct h as [|d h]; simpl in Hp; [discriminate|].
    destruct (Ascii.ascii_dec c d) as [->|]; [|discriminate].
    destruct (IH _ Hp) as [rest ->]. by exists rest.
Qed.

(** [str_in] decides occurrence as a contiguous substring. *)
Lemma str_in_spec (n h : string) :
  str_in n h = true <-> exists pre post, h = pre ++ n ++ post.
Proof.
  split.
  - induction h as [|d h IH]; cbn [str_in]; intros H.
    + rewrite orb_false_r in H. destruct (prefix_split _ _ H) as [rest ->].
      by exists "", rest.
    + apply orb_true_iff in H as [H|H].
      * destruct (prefix_split _ _ H) as [rest ->]. by exists "", rest.
      * destruct (IH H) as (pre & post & ->). by exists (String d pre), post.
  - intros (pre & post & ->). induction pre as [|d pre IH].
    + change ("" ++ n ++ post) with (n ++ post).
      destruct (n ++ post) eqn:E; cbn [str_in];
        rewrite <- E, prefix_app; reflexivity.
    + change (String d pre ++ n ++ post) with (String d (pre ++ n ++ post)).
      cbn [str_in]. rewrite IH. apply orb_true_r.
Qed.

Lemma upper_char_idem (c : ascii) : upper_char (upper_char c) = upper_char c.
Proof.
  destruct c as [[] [] [] [] [] [] [] []]; reflexivity.
Qed.

Lemma upper_idem (s : string) : upper (upper s) = upper s.
Proof.
  induction s as [|c s IH]; simpl; [reflexivity|].
  unfold upper in *; simpl. by rewrite upper_char_idem, IH.
Qed.

Lemma lower_upper_char (c : ascii) : lower_char (upper_char c) = lower_char c.
Proof. destruct c as [[] [] [] [] [] [] [] []]; reflexivity. Qed.

Lemma upper_lower_char (c : ascii) : upper_char (lower_char c) = upper_char c.
Proof. destruct c as [[] [] [] [] [] [] [] []]; reflexivity. Qed.

Lemma lower_upper (s : string) : lower (upper s) = lower s.
Proof.
  unfold lower, upper. induction s as [|c s IH]; simpl; [reflexivity|].
  by rewrite lower_upper_char, IH.
Qed.

Lemma upper_lower (s : string) : upper (lower s) = upper s.
Proof.
  unfold lower, upper. induction s as [|c s IH]; simpl; [reflexivity|].
  by rewrite upper_lower_char, IH.
Qed.

Lemma map_chars_app (f : ascii -> ascii) (a b : string) :
  map_chars f (a ++ b) = map_chars f a ++ map_chars f b.
Proof. induction a as [|c a IH]; simpl; [reflexivity|]. by rewrite IH. Qed.

(** A character mapping preserves occurrences. *)
Lemma str_in_map_chars (f : ascii -> ascii) (n h : string) :
  str_in n h = true -> str_in (map_chars f n) (map_chars f h) = true.
Proof.
  rewrite !str_in_spec. intros (pre & post & ->).
  exists (map_chars f pre), (map_chars f post).
  by rewrite !map_chars_app.
Qed.

(** Folding both sides to upper case or to lower case decides the same
    containment. *)
Lemma fold_case_agree (n h : string) :
  str_in (lower n) (lower h) = contains_ignoring_case n h.
Proof.
  unfold contains_ignoring_case. apply eq_true_iff_eq. split; intros H.
  - apply (str_in_map_chars upper_char) in H.
    fold (upper (lower n)) in H. fold (upper (lower h)) in H.
    by rewrite !upper_lower in H.
  - apply (str_in_map_chars lower_char) in H.
    fold (lower (upper n)) in H. fold (lower (upper h)) in H.
    by rewrite !lower_upper in H.
Qed.

Lemma truthy_map_chars (f : ascii -> ascii) (s : string) :
  truthy (map_chars f s) = truthy s.
Proof. by destruct s. Qed.

Lemma truthy_false (s : string) : truthy s = false <-> s = "".
Proof. destruct s; simpl; split; congruence. Qed.

(** Case mapping commutes with [strip]: it neither creates nor removes
    whitespace. *)
Lemma is_space_upper_char (c : ascii) : is_space (upper_char c) = is_space c.
Proof. destruct c as [[] [] [] [] [] [] [] []]; reflexivity. Qed.

Lemma lstrip_upper (s : string) : lstrip (upper s) = upper (lstrip s).
Proof.
  unfold upper. induction s as [|c s IH]; simpl; [reflexivity|].
  rewrite is_space_upper_char. by destruct (is_space c).
Qed.

Lemma rstrip_upper (s : string) : rstrip (upper s) = upper (rstrip s).
Proof.
  unfold upper. induction s as [|c s IH]; simpl; [reflexivity|].
  rewrite IH, is_space_upper_char.
  destruct (rstrip s); simpl; [by destruct (is_space c)|reflexivity].
Qed.

Lemma strip_upper (s : string) : strip (upper s) = upper (strip s).
Proof. unfold strip. by rewrite lstrip_upper, rstrip_upper. Qed.

(** Two spellings of a search text that differ only in case are searched
    for alike. *)
Lemma search_key_case (q q' : string) :
  lower q' = lower q -> upper (strip q') = upper (strip q).
Proof.
  intros H. rewrite <- !strip_upper, <- (upper_lower q), <- (upper_lower q').
  by rewrite H.
Qed.

End TextFacts.

(** ** The region filter *)

Section LiveFacts.

Import Live.

Variables (b : bounds) (min_alt max_alt : Q) (callsign_search : string) (ts : Z).

Lemma live_step_filter (acc : list flight) (s : state_vector) :
  live_step b min_alt max_alt callsign_search ts acc s
  = acc ++ region_filter b min_alt max_alt callsign_search
             (option_list (parse_state ts s)).
Proof.
  unfold live_step, parse_state, region_filter, keeps.
  destruct (sv_lat s) as [lat|], (sv_lon s) as [lon|]; simpl;
    try (by rewrite app_nil_r).
  destruct (in_bounds b lat lon); simpl; [|by rewrite app_nil_r].
  destruct (Py.between _ _ _); simpl; [|by rewrite app_nil_r].
  destruct (Text.truthy callsign_search); simpl; [|reflexivity].
  destruct (Text.str_in _ _); simpl; [reflexivity|by rewrite app_nil_r].
Qed.

(** The loop is the parser followed by the filter. *)
Lemma live_flights_filter (sts : list state_vector) :
  live_flights b min_alt max_alt callsign_search ts sts
  = region_filter b min_alt max_alt callsign_search (omap (parse_state ts) sts).
Proof.
  unfold live_flights.
  enough (forall acc,
    fold_left (live_step b min_alt max_alt callsign_search ts) sts acc
    = acc ++ region_filter b min_alt max_alt callsign_search
               (omap (parse_state ts) sts)) as H by apply (H []).
  induction sts as [|s sts IH]; intros acc; simpl.
  - by rewrite app_nil_r.
  - rewrite IH, live_step_filter, <- app_assoc. f_equal.
    unfold region_filter. destruct (parse_state ts s); simpl; [|reflexivity].
    by destruct (keeps _ _ _ _ _).
Qed.

Lemma region_filter_sublist (records : list flight) :
  region_filter b min_alt max_alt callsign_search records `sublist_of` records.
Proof.
  unfold region_filter. induction records as [|f records IH]; simpl.
  - constructor.
  - destruct (keeps _ _ _ _ f); by constructor.
Qed.

Lemma in_live_flights (sts : list state_vector) (f : flight) :
  In f (live_flights b min_alt max_alt callsign_search ts sts)
  <-> (exists s, In s sts /\ parse_state ts s = Some f)
      /\ keeps b min_alt max_alt callsign_search f = true.
Proof.
  rewrite live_flights_filter. unfold region_filter.
  rewrite filter_In, <- list_elem_of_In, list_elem_of_omap.
  setoid_rewrite list_elem_of_In. reflexivity.
Qed.

End LiveFacts.

Section LiveClaims.

Import Live.

(** C4. For every batch, bounds and altitude range the output of the
    region filter is a subsequence of the parsed input, in input order,
    and every output record lies within the bounds (inclusive) and has
    [min_alt <= altitude <= max_alt]; the handler runs the same loop on
    [REGION_BOUNDS]. *)
Theorem region_filter_subsequence_and_sound
    (b : bounds) (min_alt max_alt : Q) (callsign_search : string) (ts : Z)
    (sts : list state_vector) :
  let out := live_flights b min_alt max_alt callsign_search ts sts in
  out `sublist_of` omap (parse_state ts) sts
  /\ Forall (fun f =>
       (min_lat b <= fl_lat f <= max_lat b)%Q
       /\ (min_lon b <= fl_lon f <= max_lon b)%Q
       /\ (min_alt <= fl_altitude f <= max_alt)%Q) out
  /\ (forall now a data table,
        flights (fst (api_flights_live now a data table))
        = live_flights REGION_BOUNDS (Py.get (arg_min_alt a) 0%Q)
            (Py.get (arg_max_alt a) 50000%Q)
            (Text.upper (Text.strip (Py.get (arg_callsign a) EmptyString)))
            (Py.get (time data) now) (Py.or_nil (states data))).
Proof.
  cbv zeta. split; [|split].
  - rewrite live_flights_filter. apply region_filter_sublist.
  - apply List.Forall_forall. intros f Hf.
    apply in_live_flights in Hf as [_ Hk]. unfold keeps in Hk.
    apply andb_true_iff in Hk as [Hk _].
    apply andb_true_iff in Hk as [Hb Ha].
    unfold in_bounds, Py.between in *.
    repeat match goal with
           | H : _ && _ = true |- _ => apply andb_true_iff in H as [? ?]
           | H : Qle_bool _ _ = true |- _ => apply Qle_bool_iff in H
           end.
    auto.
  - reflexivity.
Qed.

(** The claim of C2 as stated fails: a callsign transmitted in lower case
    contains the search text ignoring case, yet the record is dropped. *)
Lemma callsign_match_depends_on_record_case :
  ~ (forall (now : Z) (a : args) (data : response) (table : list snapshot)
            (q : string) (s : state_vector) (f : flight),
        arg_callsign a = Some q -> q <> EmptyString ->
        In s (Py.or_nil (states data)) ->
        parse_state (Py.get (time data) now) s = Some f ->
        in_bounds REGION_BOUNDS (fl_lat f) (fl_lon f) = true ->
        Py.between (Py.get (arg_min_alt a) 0%Q) (fl_altitude f)
                   (Py.get (arg_max_alt a) 50000%Q) = true ->
        (In f (flights (fst (api_flights_live now a data table)))
         <-> Text.contains_ignoring_case q (fl_callsign f) = true)).
Proof.
  intros H.
  pose (s := Samples.lower_case_vector).
  pose (f := {| fl_icao24 := "800a01"; fl_callsign := "abc1";
                fl_origin_country := "India"; fl_lat := 10; fl_lon := 70;
                fl_altitude := 1000; fl_velocity := 230; fl_heading := 90;
                fl_timestamp := 1700000000 |}).
  assert (Hin : In f (flights (fst (api_flights_live 0 (Samples.search "abc")
                                      (Samples.feed_of [s]) [])))).
  { apply (H 0%Z _ _ [] "abc"%string s f);
      first [reflexivity | discriminate | left; reflexivity]. }
  vm_compute in Hin. exact Hin.
Qed.

(** C2, as the code has it. The search text is trimmed and upper-cased and
    must then occur verbatim in the record's (trimmed) callsign: with the
    other tests passing, the record is retained exactly when it does. The
    match therefore ignores the case of the search text, and it is
    containment ignoring case for every record whose callsign is in upper
    case. *)
Theorem callsign_match_upper_cased_search
    (now : Z) (a : args) (data : response) (table : list snapshot)
    (q : string) (s : state_vector) (f : flight) :
  arg_callsign a = Some q ->
  Text.strip q <> EmptyString ->
  In s (Py.or_nil (states data)) ->
  parse_state (Py.get (time data) now) s = Some f ->
  in_bounds REGION_BOUNDS (fl_lat f) (fl_lon f) = true ->
  Py.between (Py.get (arg_min_alt a) 0%Q) (fl_altitude f)
             (Py.get (arg_max_alt a) 50000%Q) = true ->
  (In f (flights (fst (api_flights_live now a data table)))
   <-> Text.str_in (Text.upper (Text.strip q)) (fl_callsign f) = true)
  /\ (Text.upper (fl_callsign f) = fl_callsign f ->
      (In f (flights (fst (api_flights_live now a data table)))
       <-> Text.contains_ignoring_case (Text.strip q) (fl_callsign f) = true))
  /\ (forall (a' : args) (q' : string),
        arg_min_alt a' = arg_min_alt a -> arg_max_alt a' = arg_max_alt a ->
        arg_callsign a' = Some q' -> Text.lower q' = Text.lower q ->
        api_flights_live now a' data table = api_flights_live now a data table).
Proof.
  intros Hq Hne Hs Hf Hb Ha.
  assert (Hmain : In f (flights (fst (api_flights_live now a data table)))
     <-> Text.str_in (Text.upper (Text.strip q)) (fl_callsign f) = true).
  { unfold api_flights_live; cbn [fst flights]. rewrite in_live_flights.
    unfold keeps. rewrite Hb, Ha, Hq; cbn [Py.get andb].
    unfold Text.upper at 1. rewrite truthy_map_chars.
    destruct (Text.truthy (Text.strip q)) eqn:Ht.
    - cbn [negb orb]. split; [tauto|]. intros H; split; [eauto|exact H].
    - apply truthy_false in Ht. contradiction. }
  split; [exact Hmain|split].
  - intros Hup. rewrite Hmain. unfold Text.contains_ignoring_case.
    by rewrite Hup.
  - intros a' q' Hmin Hmax Hq' Hcase. unfold api_flights_live.
    rewrite Hmin, Hmax, Hq, Hq'; cbn [Py.get].
    by rewrite (search_key_case _ _ Hcase).
Qed.

Lemma callsign_match_upper_cased_search_witness :
  In (Build_flight "800a01" "AI101" "India" 10 70 1000 230 90 1700000000)
     (flights (fst (api_flights_live 0 (Samples.search " ai1 ")
                      (Samples.feed_of [Samples.padded_vector]) []))).
Proof.
  apply (callsign_match_upper_cased_search 0 (Samples.search " ai1 ")
           (Samples.feed_of [Samples.padded_vector]) [] " ai1 "
           Samples.padded_vector
           (Build_flight "800a01" "AI101" "India" 10 70 1000 230 90 1700000000));
    first [reflexivity | discriminate | left; reflexivity].
Defined.

(** C7. Every record of the filtered batch that is stored (the first 100)
    is stored as one new row, in order after the existing rows, and the
    row carries the record's icao24, callsign, lat, lon, altitude,
    velocity and timestamp unchanged. *)
Theorem snapshot_preserves_flight_fields
    (now : Z) (a : args) (data : response) (table : list snapshot) :
  let r := api_flights_live now a data table in
  snd r = table ++ map snapshot_row (firstn 100 (flights (fst r)))
  /\ (forall (i : nat) (f : flight),
        (i < 100)%nat -> flights (fst r) !! i = Some f ->
        exists row, snd r !! (List.length table + i)%nat = Some row
          /\ snap_icao24 row = fl_icao24 f
          /\ snap_callsign row = fl_callsign f
          /\ snap_lat row = fl_lat f
          /\ snap_lon row = fl_lon f
          /\ snap_altitude row = fl_altitude f
          /\ snap_velocity row = fl_velocity f
          /\ snap_timestamp row = fl_timestamp f)
  /\ (forall f, In f (flights (fst r)) ->
        exists s, In s (Py.or_nil (states data))
          /\ parse_state (Py.get (time data) now) s = Some f).
Proof.
  cbv zeta.
  assert (Hstore : forall fls rows,
    fold_left (fun rows f => rows ++ [snapshot_row f]) fls rows
    = rows ++ map snapshot_row fls).
  { induction fls as [|f fls IH]; intros rows; simpl.
    - by rewrite app_nil_r.
    - by rewrite IH, <- app_assoc. }
  assert (Hsnd : snd (api_flights_live now a data table)
    = table ++ map snapshot_row
        (firstn 100 (flights (fst (api_flights_live now a data table))))).
  { unfold api_flights_live, store_snapshots; cbn [fst snd flights].
    apply Hstore. }
  split; [exact Hsnd|split].
  - intros i f Hi Hf. exists (snapshot_row f). split; [|by repeat split].
    rewrite Hsnd, lookup_app_r by lia.
    replace (List.length table + i - List.length table)%nat with i by lia.
    rewrite list_lookup_fmap, lookup_take_lt by exact Hi.
    by rewrite Hf.
  - intros f Hf. unfold api_flights_live in Hf; cbn [fst flights] in Hf.
    by apply in_live_flights in Hf as [Hs _].
Qed.

End LiveClaims.

(** ** Congestion statistics *)

Section StatsFacts.

Import Stats.

Lemma count_since_filter (t : Z) (table : list snapshot) :
  count_since t table
  = List.length (filter (fun r => (t <= snap_timestamp r)%Z) table).
Proof.
  unfold count_since. induction table as [|r table IH]; [reflexivity|].
  rewrite filter_cons. cbn [List.filter].
  destruct (Z.leb_spec t (snap_timestamp r)); destruct (decide _);
    try lia; simpl; by rewrite IH.
Qed.

Lemma add_to_group_keys (P : Z -> Prop) (h : Z) (groups : list (Z * nat)) :
  P h -> List.Forall (fun q => P (fst q)) groups ->
  List.Forall (fun q => P (fst q)) (add_to_group h groups).
Proof.
  intros Hh. induction groups as [|[k c] rest IH]; intros Hg; simpl.
  - by constructor.
  - inversion_clear Hg as [|? ? Hk Hrest].
    destruct (Z.eqb_spec h k); [by constructor|].
    destruct (Z.ltb_spec k h).
    + constructor; [exact Hh|]. by constructor.
    + constructor; [exact Hk|]. by apply IH.
Qed.

Lemma add_to_group_descending (h : Z) (groups : list (Z * nat)) :
  descending groups -> descending (add_to_group h groups).
Proof.
  unfold descending.
  induction groups as [|[k c] rest IH]; intros Hg; simpl.
  - repeat constructor.
  - apply StronglySorted_inv in Hg as [Hrest Hk].
    destruct (Z.eqb_spec h k); [by constructor|].
    destruct (Z.ltb_spec k h) as [Hlt|Hge].
    + constructor; [by constructor|].
      constructor; [exact Hlt|].
      eapply List.Forall_impl; [|exact Hk]. simpl. intros; lia.
    + constructor; [by apply IH|].
      apply (add_to_group_keys (fun x => (x < k)%Z)); [simpl; lia|exact Hk].
Qed.

Lemma add_to_group_positive (h : Z) (groups : list (Z * nat)) :
  List.Forall (fun q => (0 < snd q)%nat) groups ->
  List.Forall (fun q => (0 < snd q)%nat) (add_to_group h groups).
Proof.
  induction groups as [|[k c] rest IH]; intros Hg; simpl.
  - repeat constructor.
  - inversion_clear Hg as [|? ? Hk Hrest].
    destruct (Z.eqb_spec h k); [constructor; [simpl; lia|exact Hrest]|].
    destruct (Z.ltb_spec k h).
    + constructor; [simpl; lia|]. by constructor.
    + constructor; [exact Hk|]. by apply IH.
Qed.

(** A row adds one to the count recorded for its hour and leaves the
    other hours alone. *)
Lemma add_to_group_recorded (h h' : Z) (groups : list (Z * nat)) :
  recorded h (add_to_group h' groups)
  = (recorded h groups + if (h' =? h)%Z then 1 else 0)%nat.
Proof.
  induction groups as [|[k c] rest IH]; simpl.
  - lia.
  - destruct (Z.eqb_spec h' k) as [->|Hne]; simpl.
    + destruct (k =? h)%Z; lia.
    + destruct (Z.ltb_spec k h'); simpl; [lia|].
      rewrite IH. lia.
Qed.

Lemma recorded_in (h : Z) (c : nat) (groups : list (Z * nat)) :
  descending groups -> In (h, c) groups -> recorded h groups = c.
Proof.
  unfold descending. induction groups as [|[k d] rest IH]; intros Hg Hin.
  - destruct Hin.
  - apply StronglySorted_inv in Hg as [Hrest Hk]. simpl.
    assert (Hout : forall x, (k <= x)%Z -> recorded x rest = 0%nat).
    { clear -Hk. induction rest as [|[k' d'] rest IH]; intros x Hx;
        [reflexivity|].
      inversion_clear Hk as [|? ? Hk' Hrest]. simpl in *.
      destruct (Z.eqb_spec k' x); [lia|]. by rewrite IH. }
    destruct Hin as [Heq|Hin].
    + injection Heq as -> ->. rewrite Z.eqb_refl, Hout; lia.
    + assert (Hlt : (h < k)%Z).
      { rewrite List.Forall_forall in Hk. exact (Hk _ Hin). }
      destruct (Z.eqb_spec k h); [lia|]. simpl. by apply IH.
Qed.

Lemma recorded_positive_in (h : Z) (groups : list (Z * nat)) :
  (0 < recorded h groups)%nat -> exists c, In (h, c) groups.
Proof.
  induction groups as [|[k d] rest IH]; simpl; [lia|]. intros Hpos.
  destruct (Z.eqb_spec k h) as [->|].
  - exists d. by left.
  - destruct IH as [c Hc]; [lia|]. exists c. by right.
Qed.

(** What the grouped query holds after all rows have been read. *)
Lemma group_by_hour_invariant (table : list snapshot) :
  descending (group_by_hour table)
  /\ List.Forall (fun q => (0 < snd q)%nat) (group_by_hour table)
  /\ forall h, recorded h (group_by_hour table) = rows_in_hour h table.
Proof.
  unfold group_by_hour.
  enough (forall acc,
    descending acc -> List.Forall (fun q => (0 < snd q)%nat) acc ->
    let g := fold_left (fun groups r => add_to_group (hour_bucket r) groups)
                       table acc in
    descending g /\ List.Forall (fun q => (0 < snd q)%nat) g
    /\ forall h, recorded h g = (recorded h acc + rows_in_hour h table)%nat)
    as H.
  { apply (H []); constructor. }
  induction table as [|r table IH]; intros acc Hd Hp; cbn [fold_left].
  - repeat split; [exact Hd|exact Hp|]. intros h. unfold rows_in_hour. simpl. lia.
  - destruct (IH (add_to_group (hour_bucket r) acc)) as (Hd' & Hp' & Hc').
    + by apply add_to_group_descending.
    + by apply add_to_group_positive.
    + repeat split; [exact Hd'|exact Hp'|]. intros h.
      rewrite Hc', add_to_group_recorded. unfold rows_in_hour.
      cbn [List.filter]. destruct (hour_bucket r =? h)%Z; simpl; lia.
Qed.

End StatsFacts.

Section StatsClaims.

Import Stats.

(** C3. The summary's [recent] is the number of stored rows with
    [timestamp >= now - 600], and the level follows it with exact
    boundaries: below 50 LOW, from 50 to 149 MEDIUM, from 150 on HIGH; in
    particular 49, 50, 149 and 150 give LOW, MEDIUM, MEDIUM and HIGH. *)
Theorem congestion_summary_boundaries (now : Z) (table : list snapshot) :
  let s := api_stats_summary now table in
  let recent := recent_snapshot_count s in
  recent = List.length
             (filter (fun r => (now - 600 <= snap_timestamp r)%Z) table)
  /\ ((recent < 50)%nat -> congestion_level s = LOW)
  /\ ((50 <= recent < 150)%nat -> congestion_level s = MEDIUM)
  /\ ((150 <= recent)%nat -> congestion_level s = HIGH)
  /\ congestion 49 = LOW /\ congestion 50 = MEDIUM
  /\ congestion 149 = MEDIUM /\ congestion 150 = HIGH.
Proof.
  cbv zeta. unfold api_stats_summary.
  cbn [recent_snapshot_count congestion_level].
  split; [apply count_since_filter|].
  generalize (count_since (now - 600) table) as n. intros n.
  unfold congestion. repeat split; try reflexivity.
  - intros Hn. apply Nat.ltb_lt in Hn. by rewrite Hn.
  - intros [Hlo Hhi]. apply Nat.ltb_ge in Hlo. apply Nat.ltb_lt in Hhi.
    by rewrite Hlo, Hhi.
  - intros Hn.
    assert (H50 : (n <? 50)%nat = false) by (apply Nat.ltb_ge; lia).
    assert (H150 : (n <? 150)%nat = false) by (apply Nat.ltb_ge; lia).
    by rewrite H50, H150.
Qed.

(** The claim of C6 as stated fails below the epoch: the query divides
    with truncation, so the rows at -1 s and at 1 s share bucket 0, while
    [floor (timestamp / 3600)] separates them. *)
Lemma hourly_buckets_not_floor_below_epoch :
  ~ (forall (table : list snapshot) (limit : nat) (h : Z) (c : nat),
        In (h, c) (hourly_buckets limit table) ->
        c = List.length
              (List.filter (fun r => (snap_timestamp r / 3600 =? h)%Z) table)).
Proof.
  intros H.
  specialize (H [Samples.row_at (-1); Samples.row_at 1] 24%nat 0%Z 2%nat).
  vm_compute in H. discriminate H. by left.
Qed.

(** C6, as the code has it. Rows are grouped by [timestamp/3600] with
    SQLite's integer division, which truncates toward zero and is
    [floor (timestamp / 3600)] for every non-negative timestamp. There is
    one pair per non-empty bucket, its count is the number of rows of the
    bucket, the pairs are in strictly descending order of the hour, and
    the result is the first [limit] of them, the most recent ones; the
    summary asks for 24. *)
Theorem hourly_buckets_grouped_descending
    (table : list snapshot) (limit : nat) :
  let all := group_by_hour table in
  let out := hourly_buckets limit table in
  (forall r, hour_bucket r = Z.quot (snap_timestamp r) 3600
             /\ ((0 <= snap_timestamp r)%Z ->
                 hour_bucket r = (snap_timestamp r / 3600)%Z))
  /\ (forall h c, In (h, c) all <->
                  (0 < c)%nat /\ c = rows_in_hour h table)
  /\ descending all
  /\ out = firstn limit all
  /\ (forall p q, In p out -> In q (skipn limit all) -> (fst q < fst p)%Z)
  /\ (forall now, flights_per_hour (api_stats_summary now table)
                  = hourly_buckets 24 table).
Proof.
  cbv zeta.
  destruct (group_by_hour_invariant table) as (Hd & Hp & Hc).
  split; [|split; [|split; [|split; [|split]]]].
  - intros r. split; [reflexivity|]. intros Hr. unfold hour_bucket.
    apply Z.quot_div_nonneg; lia.
  - intros h c. split.
    + intros Hin. split.
      * rewrite List.Forall_forall in Hp. exact (Hp _ Hin).
      * by rewrite <- Hc, (recorded_in h c _ Hd Hin).
    + intros [Hpos ->].
      destruct (recorded_positive_in h (group_by_hour table)) as [c Hin].
      * by rewrite Hc.
      * by rewrite <- Hc, (recorded_in h c _ Hd Hin).
  - exact Hd.
  - reflexivity.
  - unfold hourly_buckets. intros p q Hp' Hq.
    unfold descending in Hd. rewrite <- (firstn_skipn limit) in Hd.
    revert Hd Hp' Hq.
    generalize (firstn limit (group_by_hour table)) as front.
    generalize (skipn limit (group_by_hour table)) as back.
    intros back front. induction front as [|x front IH]; intros Hd Hp' Hq.
    + destruct Hp'.
    + simpl in Hd. apply StronglySorted_inv in Hd as [Hd Hx].
      destruct Hp' as [->|Hp'].
      * rewrite List.Forall_forall in Hx. apply Hx, in_or_app. by right.
      * by apply IH.
  - reflexivity.
Qed.

End StatsClaims.

(** ** Weather risk and the outcomes of the airport queries *)

Section WeatherFacts.

Lemma Qlt_bool_iff (x y : Q) : Py.Qlt_bool x y = true <-> (x < y)%Q.
Proof.
  unfold Py.Qlt_bool. rewrite negb_true_iff, <- not_true_iff_false, Qle_bool_iff.
  split; [apply Qnot_le_lt | apply Qlt_not_le].
Qed.

(** The four tests of the risk mapping, read on the original text. *)
Lemma risk_unfold (condition : string) (wind : Q) :
  let has := fun word => Text.contains_ignoring_case word condition in
  Weather.risk condition wind
  = if has "storm"%string || has "thunder"%string || Py.Qlt_bool 15 wind
    then Weather.HIGH
    else if has "rain"%string || has "fog"%string then Weather.MODERATE
    else Weather.LOW.
Proof.
  cbv zeta. unfold Weather.risk. by rewrite <- !fold_case_agree.
Qed.

End WeatherFacts.

Section WeatherClaims.

Import Weather.
Local Open Scope string_scope.

(** C5. The risk mapping tests in a fixed order: the condition text,
    ignoring case, contains "storm" or "thunder", or the wind speed is
    above 15, gives HIGH whatever else holds; otherwise "rain" or "fog"
    gives MODERATE; otherwise LOW. The four sample observations map as
    the specification lists them. *)
Theorem weather_risk_precedence (condition : string) (wind : Q) :
  let has := fun word => Text.contains_ignoring_case word condition = true in
  let severe := has "storm" \/ has "thunder" \/ (15 < wind)%Q in
  let wet := has "rain" \/ has "fog" in
  (severe -> risk condition wind = HIGH)
  /\ (~ severe -> wet -> risk condition wind = MODERATE)
  /\ (~ severe -> ~ wet -> risk condition wind = LOW)
  /\ risk "Thunderstorm" 5 = HIGH
  /\ risk "light rain" 5 = MODERATE
  /\ risk "clear" 20 = HIGH
  /\ risk "clear" 5 = LOW.
Proof.
  cbv zeta. rewrite risk_unfold. cbv zeta. rewrite <- Qlt_bool_iff.
  destruct (Text.contains_ignoring_case "storm" condition),
           (Text.contains_ignoring_case "thunder" condition),
           (Py.Qlt_bool 15 wind),
           (Text.contains_ignoring_case "rain" condition),
           (Text.contains_ignoring_case "fog" condition);
    cbn [orb]; repeat split; try reflexivity; intros; try reflexivity;
    exfalso; intuition congruence.
Qed.

End WeatherClaims.

(** ** Great-circle distance *)

Section GeoFacts.

Import Geo.
Local Open Scope R_scope.



(** Along the equator the distance is the arc: longitude difference in
    radians times the Earth radius. *)
Lemma haversine_equator (lon : R) :
  0 <= lon <= 180 -> haversine 0 0 0 lon = 6371 * (lon * (PI / 180)).
Proof.
  intros [Hlo Hhi]. unfold haversine, radians.
  assert (HPI := PI_RGT_0).
  replace ((0 - 0) * (PI / 180) / 2) with 0 by lra.
  replace (0 * (PI / 180)) with 0 by lra.
  rewrite sin_0, cos_0.
  replace (0 ^ 2 + 1 * 1 * sin ((lon - 0) * (PI / 180) / 2) ^ 2)
    with (Rsqr (sin (lon * (PI / 180) / 2)))
    by (unfold Rsqr; replace (lon - 0) with lon by lra; ring).
  assert (Hx : 0 <= lon * (PI / 180) / 2 <= PI / 2) by (split; nra).
  rewrite sqrt_Rsqr by (apply sin_ge_0; lra).
  rewrite asin_sin by lra. lra.
Qed.


End GeoFacts.

(** ** Airport traffic *)

Section TrafficFacts.

Import Traffic.

Variables (m : Math.libm) (lat0 lon0 : Q).

Lemma merge_empty_r (r : buckets) : merge r empty = r.
Proof. destruct r. unfold merge; simpl. by rewrite !app_nil_r. Qed.

Lemma merge_empty_l (r : buckets) : merge empty r = r.
Proof. by destruct r. Qed.

Lemma merge_assoc (a b c : buckets) :
  merge (merge a b) c = merge a (merge b c).
Proof. unfold merge; simpl. by rewrite <- !app_assoc. Qed.

Lemma bucket_of_merge (k : bucket) (a b : buckets) :
  bucket_of k (merge a b) = bucket_of k a ++ bucket_of k b.
Proof. by destruct k. Qed.

(** The loop body appends to the buckets what it puts into empty ones. *)
Lemma traffic_step_merge (acc : buckets) (s : state_vector) :
  traffic_step m lat0 lon0 acc s
  = (b <- single m lat0 lon0 s ;; Return (merge acc b)).
Proof.
  unfold single, traffic_step.
  destruct (sv_lat s) as [lat|], (sv_lon s) as [lon|]; cbn [bind];
    try (by rewrite merge_empty_r).
  destruct (haversine m lat0 lon0 lat lon) as [d|e]; cbn [bind];
    [|reflexivity].
  destruct (Qle_bool d 100); [|cbn [bind]; by rewrite merge_empty_r].
  destruct (_ && _); [|destruct (Py.Qlt_bool d 30)];
    cbn [bind]; unfold merge, empty; cbn [arrivals departures others app];
    by rewrite ?app_nil_r.
Qed.

Lemma classify_snoc (sts : list state_vector) (s : state_vector) :
  classify m lat0 lon0 (sts ++ [s])
  = (r <- classify m lat0 lon0 sts ;; traffic_step m lat0 lon0 r s).
Proof. unfold classify. by rewrite fold_left_app. Qed.

(** The loop over a concatenated feed: the first part, then the second,
    bucket after bucket; an exception in either part is the outcome. *)
Lemma classify_app (sts1 sts2 : list state_vector) :
  classify m lat0 lon0 (sts1 ++ sts2)
  = (r1 <- classify m lat0 lon0 sts1 ;;
     r2 <- classify m lat0 lon0 sts2 ;;
     Return (merge r1 r2)).
Proof.
  induction sts2 as [|s sts2 IH] using rev_ind.
  - rewrite app_nil_r. destruct (classify m lat0 lon0 sts1) as [r1|e];
      cbn; [by rewrite merge_empty_r|reflexivity].
  - rewrite app_assoc, !classify_snoc, IH.
    destruct (classify m lat0 lon0 sts1) as [r1|e]; cbn [bind];
      [|reflexivity].
    destruct (classify m lat0 lon0 sts2) as [r2|e]; cbn [bind];
      [|reflexivity].
    rewrite !traffic_step_merge.
    destruct (single m lat0 lon0 s) as [b|e]; cbn [bind]; [|reflexivity].
    by rewrite merge_assoc.
Qed.

Lemma classify_cons (s : state_vector) (sts : list state_vector) :
  classify m lat0 lon0 (s :: sts)
  = (b <- single m lat0 lon0 s ;;
     r <- classify m lat0 lon0 sts ;;
     Return (merge b r)).
Proof. exact (classify_app [s] sts). Qed.

(** What the loop body does with one record. *)
Lemma single_positioned (s : state_vector) (lat lon d : Q) :
  sv_lat s = Some lat -> sv_lon s = Some lon ->
  haversine m lat0 lon0 lat lon = Return d ->
  single m lat0 lon0 s
  = Return
      match verdict d (Py.or_zero (sv_heading s)) with
      | None => empty
      | Some Arrivals =>
          {| arrivals := [info_of s lat lon d]; departures := [];
             others := [] |}
      | Some Departures =>
          {| arrivals := []; departures := [info_of s lat lon d];
             others := [] |}
      | Some Others =>
          {| arrivals := []; departures := [];
             others := [info_of s lat lon d] |}
      end.
Proof.
  intros Hlat Hlon Hd. unfold single, traffic_step, verdict, info_of.
  rewrite Hlat, Hlon, Hd. cbn [bind].
  destruct (Qle_bool d 100); [|reflexivity].
  destruct (_ && _); [reflexivity|].
  by destruct (Py.Qlt_bool d 30).
Qed.

Lemma single_unpositioned (s : state_vector) :
  sv_lat s = None \/ sv_lon s = None -> single m lat0 lon0 s = Return empty.
Proof.
  unfold single, traffic_step.
  intros [-> | ->]; [reflexivity|]. by destruct (sv_lat s).
Qed.

Lemma single_in (s : state_vector) (b : buckets) (k : bucket) (i : info) :
  single m lat0 lon0 s = Return b ->
  In i (bucket_of k b)
  <-> exists lat lon d,
        sv_lat s = Some lat /\ sv_lon s = Some lon
        /\ haversine m lat0 lon0 lat lon = Return d
        /\ i = info_of s lat lon d
        /\ verdict d (Py.or_zero (sv_heading s)) = Some k.
Proof.
  intros Hb.
  destruct (sv_lat s) as [lat|] eqn:Hlat.
  2:{ rewrite single_unpositioned in Hb by (by left). injection Hb as <-.
      split; [by destruct k|]. by intros (? & ? & ? & ? & _). }
  destruct (sv_lon s) as [lon|] eqn:Hlon.
  2:{ rewrite single_unpositioned in Hb by (by right). injection Hb as <-.
      split; [by destruct k|]. by intros (? & ? & ? & _ & ? & _). }
  destruct (haversine m lat0 lon0 lat lon) as [d|e] eqn:Hd.
  2:{ unfold single, traffic_step in Hb. rewrite Hlat, Hlon, Hd in Hb.
      discriminate Hb. }
  rewrite (single_positioned s lat lon d Hlat Hlon Hd) in Hb.
  injection Hb as <-. split.
  - intros Hin. exists lat, lon, d. do 2 (split; [reflexivity|]).
    split; [exact Hd|].
    destruct (verdict d (Py.or_zero (sv_heading s))) as [[]|];
      destruct k; cbn in Hin; try contradiction;
      destruct Hin as [<-|[]]; by split.
  - intros (lat' & lon' & d' & [= <-] & [= <-] & Hd' & -> & Hv).
    assert (d' = d) as -> by congruence.
    rewrite Hv. destruct k; by left.
Qed.

Lemma single_raise (s : state_vector) (e : exception) :
  single m lat0 lon0 s = Raise e
  <-> exists lat lon,
        sv_lat s = Some lat /\ sv_lon s = Some lon
        /\ haversine m lat0 lon0 lat lon = Raise e.
Proof.
  split.
  - intros H.
    destruct (sv_lat s) as [lat|] eqn:Hlat;
      [|rewrite single_unpositioned in H by (by left); discriminate H].
    destruct (sv_lon s) as [lon|] eqn:Hlon;
      [|rewrite single_unpositioned in H by (by right); discriminate H].
    exists lat, lon. do 2 (split; [reflexivity|]).
    destruct (haversine m lat0 lon0 lat lon) as [d|e'] eqn:Hd.
    + rewrite (single_positioned s lat lon d Hlat Hlon Hd) in H.
      discriminate H.
    + unfold single, traffic_step in H. rewrite Hlat, Hlon, Hd in H.
      cbn [bind] in H. by injection H as ->.
  - intros (lat & lon & Hlat & Hlon & Hd).
    unfold single, traffic_step. by rewrite Hlat, Hlon, Hd.
Qed.

(** The loop returns exactly when every distance computation does, and
    then a bucket holds what the loop body put there for some record. *)
Lemma classify_return (sts : list state_vector) (r : buckets) :
  classify m lat0 lon0 sts = Return r ->
  (forall s, In s sts -> exists b, single m lat0 lon0 s = Return b)
  /\ (forall k i,
        In i (bucket_of k r)
        <-> exists s b, In s sts /\ single m lat0 lon0 s = Return b
                        /\ In i (bucket_of k b)).
Proof.
  revert r. induction sts as [|s sts IH]; intros r.
  - intros [= <-]. split; [intros s []|].
    intros k i. split; [by destruct k|intros (s & b & [] & _)].
  - rewrite classify_cons.
    destruct (single m lat0 lon0 s) as [b|e] eqn:Hs; cbn [bind];
      [|discriminate].
    destruct (classify m lat0 lon0 sts) as [r'|e]; cbn [bind];
      [|discriminate].
    intros [= <-]. destruct (IH r' eq_refl) as [Hall Hin]. split.
    + intros s' [<-|Hs']; [by exists b|by apply Hall].
    + intros k i. rewrite bucket_of_merge, in_app_iff, Hin. split.
      * intros [Hi|(s' & b' & Hs' & Hb' & Hi)].
        -- exists s, b. split; [by left|by split].
        -- exists s', b'. split; [by right|by split].
      * intros (s' & b' & [<-|Hs'] & Hb' & Hi).
        -- left. by replace b with b' by congruence.
        -- right. by exists s', b'.
Qed.

Lemma classify_raise (sts : list state_vector) (e : exception) :
  classify m lat0 lon0 sts = Raise e ->
  exists s, In s sts /\ single m lat0 lon0 s = Raise e.
Proof.
  induction sts as [|s sts IH]; [discriminate|].
  rewrite classify_cons.
  destruct (single m lat0 lon0 s) as [b|e'] eqn:Hs; cbn [bind].
  - destruct (classify m lat0 lon0 sts) as [r'|e'']; cbn [bind];
      [discriminate|].
    intros [= <-]. destruct (IH eq_refl) as (s' & Hs' & He).
    exists s'. split; [by right|exact He].
  - intros [= <-]. exists s. split; [by left|exact Hs].
Qed.

Lemma classify_returns (sts : list state_vector) :
  (forall s, In s sts -> exists b, single m lat0 lon0 s = Return b) ->
  exists r, classify m lat0 lon0 sts = Return r.
Proof.
  intros Hall. destruct (classify m lat0 lon0 sts) as [r|e] eqn:E;
    [by exists r|].
  apply classify_raise in E as (s & Hs & He).
  destruct (Hall s Hs) as [b Hb]. congruence.
Qed.

Lemma in_bucket (sts : list state_vector) (r : buckets) (k : bucket)
    (i : info) :
  classify m lat0 lon0 sts = Return r ->
  In i (bucket_of k r)
  <-> exists s lat lon d,
        In s sts /\ sv_lat s = Some lat /\ sv_lon s = Some lon
        /\ haversine m lat0 lon0 lat lon = Return d
        /\ i = info_of s lat lon d
        /\ verdict d (Py.or_zero (sv_heading s)) = Some k.
Proof.
  intros Hr. destruct (classify_return sts r Hr) as [_ Hin].
  rewrite Hin. split.
  - intros (s & b & Hs & Hb & Hi).
    apply (single_in s b k i Hb) in Hi as (lat & lon & d & H).
    by exists s, lat, lon, d.
  - intros (s & lat & lon & d & Hs & H).
    destruct (classify_return sts r Hr) as [Hall _].
    destruct (Hall s Hs) as [b Hb]. exists s, b.
    split; [exact Hs|]. split; [exact Hb|].
    apply (single_in s b k i Hb). by exists lat, lon, d.
Qed.

(** When the loop returns, a record with a position has a computed
    distance, and it is in a bucket exactly when the rule sends that
    distance and its heading there. *)
Lemma record_bucket (sts : list state_vector) (r : buckets)
    (s : state_vector) (lat lon : Q) :
  classify m lat0 lon0 sts = Return r ->
  In s sts -> sv_lat s = Some lat -> sv_lon s = Some lon ->
  exists d, haversine m lat0 lon0 lat lon = Return d
    /\ forall k,
         In (info_of s lat lon d) (bucket_of k r)
         <-> verdict d (Py.or_zero (sv_heading s)) = Some k.
Proof.
  intros Hr Hs Hlat Hlon.
  destruct (classify_return sts r Hr) as [Hall _].
  destruct (Hall s Hs) as [b Hb].
  destruct (haversine m lat0 lon0 lat lon) as [d|e] eqn:Hd.
  - exists d. split; [reflexivity|]. intros k.
    rewrite (in_bucket sts r k _ Hr). split.
    + intros (s' & lat' & lon' & d' & _ & _ & _ & Hd' & Heq & Hv).
      assert (lat' = lat) as -> by exact (eq_sym (f_equal i_lat Heq)).
      assert (lon' = lon) as -> by exact (eq_sym (f_equal i_lon Heq)).
      assert (d' = d) as -> by congruence.
      assert (Hh := f_equal i_heading Heq). cbn in Hh. by rewrite Hh.
    + intros Hv. by exists s, lat, lon, d.
  - exfalso. assert (single m lat0 lon0 s = Raise e) as He.
    { apply single_raise. by exists lat, lon. }
    congruence.
Qed.

Lemma verdict_far (d h : Q) : (100 < d)%Q -> verdict d h = None.
Proof.
  intros Hd. unfold verdict.
  destruct (Qle_bool d 100) eqn:E; [|reflexivity].
  apply Qle_bool_iff in E. Lqa.lra.
Qed.

Lemma Qle_bool_true (x y : Q) : (x <= y)%Q -> Qle_bool x y = true.
Proof. apply Qle_bool_iff. Qed.

Lemma Qlt_bool_true (x y : Q) : (x < y)%Q -> Py.Qlt_bool x y = true.
Proof. apply Qlt_bool_iff. Qed.

Lemma Qlt_bool_false (x y : Q) : (y <= x)%Q -> Py.Qlt_bool x y = false.
Proof.
  intros H. destruct (Py.Qlt_bool x y) eqn:E; [|reflexivity].
  apply Qlt_bool_iff in E. Lqa.lra.
Qed.

Lemma verdict_arrival (d h : Q) :
  (d <= 100)%Q -> (30 < d)%Q -> ~ (h == 0)%Q -> ~ (h == 360)%Q ->
  verdict d h = Some Arrivals.
Proof.
  intros Hd Hd' H0 H360. unfold verdict.
  rewrite (Qle_bool_true _ _ Hd), (Qlt_bool_true _ _ Hd').
  destruct (Qeq_bool h 0) eqn:E0; [apply Qeq_bool_iff in E0; contradiction|].
  destruct (Qeq_bool h 360) eqn:E1; [apply Qeq_bool_iff in E1; contradiction|].
  reflexivity.
Qed.

Lemma verdict_departure (d h : Q) :
  (d < 30)%Q -> verdict d h = Some Departures.
Proof.
  intros Hd. unfold verdict.
  rewrite (Qle_bool_true d 100) by Lqa.lra.
  rewrite (Qlt_bool_false 30 d) by Lqa.lra.
  by rewrite (Qlt_bool_true _ _ Hd).
Qed.

Lemma verdict_boundary (d h : Q) :
  (d == 30)%Q -> verdict d h = Some Others.
Proof.
  intros Hd. unfold verdict.
  rewrite (Qle_bool_true d 100) by Lqa.lra.
  rewrite (Qlt_bool_false 30 d) by Lqa.lra.
  by rewrite (Qlt_bool_false d 30) by Lqa.lra.
Qed.

Lemma verdict_heading (d h : Q) :
  (d <= 100)%Q -> (30 <= d)%Q -> (h == 0)%Q \/ (h == 360)%Q ->
  verdict d h = Some Others.
Proof.
  intros Hd Hd' Hh. unfold verdict.
  rewrite (Qle_bool_true _ _ Hd).
  rewrite (Qlt_bool_false d 30) by Lqa.lra.
  destruct Hh as [Hh|Hh]; apply Qeq_bool_iff in Hh; rewrite Hh;
    by rewrite ?andb_false_r.
Qed.

Lemma verdict_zero_heading (d h : Q) :
  (h == 0)%Q -> verdict d h <> Some Arrivals.
Proof.
  intros Hh. unfold verdict. apply Qeq_bool_iff in Hh. rewrite Hh.
  rewrite andb_false_r. cbn [andb].
  destruct (Qle_bool d 100); [|discriminate].
  destruct (Py.Qlt_bool d 30); discriminate.
Qed.

(** The branch taken tells where the distance and the heading lie. *)
Lemma verdict_inv (d h : Q) (k : bucket) :
  verdict d h = Some k ->
  (d <= 100)%Q
  /\ match k with
     | Arrivals => (30 < d)%Q /\ ~ (h == 0)%Q /\ ~ (h == 360)%Q
     | Departures => (d < 30)%Q
     | Others => (30 <= d)%Q /\ ((d == 30)%Q \/ (h == 0)%Q \/ (h == 360)%Q)
     end.
Proof.
  unfold verdict. destruct (Qle_bool d 100) eqn:E100; [|discriminate].
  apply Qle_bool_iff in E100. intros H. split; [exact E100|].
  destruct (Py.Qlt_bool 30 d) eqn:E30; cbn [andb] in H.
  - apply Qlt_bool_iff in E30.
    assert (Hnot : Py.Qlt_bool d 30 = false) by (apply Qlt_bool_false; Lqa.lra).
    rewrite Hnot in H.
    destruct (Qeq_bool h 0) eqn:E0; cbn [negb andb] in H.
    + apply Qeq_bool_iff in E0. injection H as <-. split; [Lqa.lra|tauto].
    + apply Qeq_bool_neq in E0.
      destruct (Qeq_bool h 360) eqn:E1; cbn [negb] in H.
      * apply Qeq_bool_iff in E1. injection H as <-. split; [Lqa.lra|tauto].
      * apply Qeq_bool_neq in E1. injection H as <-. tauto.
  - assert (Hle : (d <= 30)%Q).
    { destruct (Qlt_le_dec 30 d) as [Hlt|Hle]; [|exact Hle].
      apply Qlt_bool_iff in Hlt. congruence. }
    destruct (Py.Qlt_bool d 30) eqn:E; injection H as <-.
    + by apply Qlt_bool_iff in E.
    + assert (Hge : (30 <= d)%Q).
      { destruct (Qlt_le_dec d 30) as [Hlt|Hge]; [|exact Hge].
        apply Qlt_bool_iff in Hlt. congruence. }
      split; [exact Hge|]. left. Lqa.lra.
Qed.

End TrafficFacts.

Section TrafficClaims.

Import Traffic.

Ltac place Hv Hk :=
  repeat split;
  first [ apply (Hk Arrivals); exact Hv
        | apply (Hk Departures); exact Hv
        | apply (Hk Others); exact Hv
        | let X := fresh in
          intros X;
          first [apply (Hk Arrivals) in X | apply (Hk Departures) in X
                | apply (Hk Others) in X];
          rewrite Hv in X; discriminate X ].

(** C1. For a feed record with a position, with [d] the distance that
    [haversine] computes from the airport and [h] its heading (0 when
    absent): beyond 100 km it is in no bucket; within 100 km it is an
    arrival when [d > 30] and [h] is neither 0 nor 360, a departure when
    [d < 30], and otherwise, that is at exactly 30 km with any heading or
    beyond 30 km with heading 0 or 360, it is among the others. The loop
    returns buckets unless a distance computation raises, and the
    handler classifies the feed around the airport's coordinates with
    this loop. *)
Theorem airport_traffic_classification
    (m : Math.libm) (lat0 lon0 : Q) (sts : list state_vector)
    (s : state_vector) (lat lon : Q) :
  In s sts -> sv_lat s = Some lat -> sv_lon s = Some lon ->
  let h := Py.or_zero (sv_heading s) in
  match classify m lat0 lon0 sts with
  | Return r =>
      exists d, haversine m lat0 lon0 lat lon = Return d /\
        let i := info_of s lat lon d in
        ((100 < d)%Q ->
           ~ In i (arrivals r) /\ ~ In i (departures r) /\ ~ In i (others r))
        /\ ((d <= 100)%Q -> (30 < d)%Q -> ~ (h == 0)%Q -> ~ (h == 360)%Q ->
            In i (arrivals r) /\ ~ In i (departures r) /\ ~ In i (others r))
        /\ ((d < 30)%Q ->
            ~ In i (arrivals r) /\ In i (departures r) /\ ~ In i (others r))
        /\ ((d == 30)%Q ->
            ~ In i (arrivals r) /\ ~ In i (departures r) /\ In i (others r))
        /\ ((d <= 100)%Q -> (30 < d)%Q -> (h == 0)%Q \/ (h == 360)%Q ->
            ~ In i (arrivals r) /\ ~ In i (departures r) /\ In i (others r))
  | Raise e =>
      exists s' lat' lon',
        In s' sts /\ sv_lat s' = Some lat' /\ sv_lon s' = Some lon'
        /\ haversine m lat0 lon0 lat' lon' = Raise e
  end
  /\ ((forall s' lat' lon', In s' sts ->
         sv_lat s' = Some lat' -> sv_lon s' = Some lon' ->
         exists d', haversine m lat0 lon0 lat' lon' = Return d') ->
      exists r, classify m lat0 lon0 sts = Return r)
  /\ (forall w airports code ap,
        airport_by_code airports (Text.upper code) = Some ap ->
        api_airport_traffic m w airports code
        = (r <- classify m (ap_lat ap) (ap_lon ap)
                  (Py.or_nil (states (opensky w))) ;;
           Return (Ok {| t_airport := ap_code ap; t_name := ap_name ap;
                         t_buckets := r |}),
           [OpenSkyCall])).
Proof.
  intros Hs Hlat Hlon. cbv zeta. split; [|split].
  - destruct (classify m lat0 lon0 sts) as [r|e] eqn:Hr.
    + destruct (record_bucket m lat0 lon0 sts r s lat lon Hr Hs Hlat Hlon)
        as (d & Hd & Hk).
      exists d. split; [exact Hd|]. cbv zeta. cbn [bucket_of] in Hk.
      split; [|split; [|split; [|split]]].
      * intros Hfar.
        assert (Hv := verdict_far d (Py.or_zero (sv_heading s)) Hfar).
        place Hv Hk.
      * intros H1 H2 H3 H4.
        assert (Hv := verdict_arrival d _ H1 H2 H3 H4). place Hv Hk.
      * intros H1.
        assert (Hv := verdict_departure d (Py.or_zero (sv_heading s)) H1).
        place Hv Hk.
      * intros H1.
        assert (Hv := verdict_boundary d (Py.or_zero (sv_heading s)) H1).
        place Hv Hk.
      * intros H1 H2 H3.
        assert (Hge : (30 <= d)%Q) by Lqa.lra.
        assert (Hv := verdict_heading d _ H1 Hge H3). place Hv Hk.
    + apply classify_raise in Hr as (s' & Hs' & He).
      apply single_raise in He as (lat' & lon' & H).
      by exists s', lat', lon'.
  - intros Hall. apply classify_returns. intros s' Hs'.
    destruct (single m lat0 lon0 s') as [b|e] eqn:E; [by exists b|].
    apply single_raise in E as (lat' & lon' & Hlat' & Hlon' & He).
    destruct (Hall s' lat' lon' Hs' Hlat' Hlon') as [d' Hd']. congruence.
  - intros w airports code ap Hap. unfold api_airport_traffic.
    by rewrite Hap.
Qed.

Lemma airport_traffic_classification_witness :
  exists r d,
    classify Samples.glibc 0 0 Samples.equator_feed = Return r
    /\ haversine Samples.glibc 0 0 0 Samples.lon_30_km = Return d
    /\ (d == 30)%Q
    /\ In (info_of (Samples.on_equator Samples.lon_30_km (Some 90%Q))
             0 Samples.lon_30_km d) (others r).
Proof.
  destruct (airport_traffic_classification Samples.glibc 0 0
              Samples.equator_feed
              (Samples.on_equator Samples.lon_30_km (Some 90%Q))
              0 Samples.lon_30_km) as [H _];
    [right; right; left; reflexivity | reflexivity | reflexivity |].
  destruct (classify Samples.glibc 0 0 Samples.equator_feed) as [r|e] eqn:Hr;
    [|vm_compute in Hr; discriminate Hr].
  destruct H as (d & Hd & _ & _ & _ & H30 & _).
  assert (Heq : (d == 30)%Q).
  { vm_compute in Hd. injection Hd as <-. reflexivity. }
  exists r, d. split; [reflexivity|]. split; [exact Hd|].
  split; [exact Heq|]. by apply H30.
Defined.

(** C10. A record whose heading is null is given heading 0 and is
    therefore never an arrival, at any distance: within the 100 km radius
    it is a departure below 30 km and among the others from 30 km on. The
    distance is the one [haversine] computes. *)
Theorem null_heading_never_arrival
    (m : Math.libm) (lat0 lon0 : Q) (sts : list state_vector) (r : buckets)
    (s : state_vector) (lat lon : Q) :
  classify m lat0 lon0 sts = Return r ->
  In s sts -> sv_heading s = None ->
  sv_lat s = Some lat -> sv_lon s = Some lon ->
  exists d, haversine m lat0 lon0 lat lon = Return d /\
    let i := info_of s lat lon d in
    i_heading i = 0%Q
    /\ ~ In i (arrivals r)
    /\ ((d < 30)%Q -> In i (departures r) /\ ~ In i (others r))
    /\ ((30 <= d <= 100)%Q -> In i (others r) /\ ~ In i (departures r))
    /\ ((100 < d)%Q -> ~ In i (departures r) /\ ~ In i (others r)).
Proof.
  intros Hr Hs Hh Hlat Hlon.
  destruct (record_bucket m lat0 lon0 sts r s lat lon Hr Hs Hlat Hlon)
    as (d & Hd & Hk).
  exists d. split; [exact Hd|]. cbv zeta. cbn [bucket_of] in Hk.
  rewrite Hh in Hk. cbn [Py.or_zero] in Hk.
  split; [unfold info_of; cbn; by rewrite Hh|].
  split; [|split; [|split]].
  - intros X. apply (Hk Arrivals) in X.
    by apply (verdict_zero_heading d 0%Q) in X.
  - intros H1. assert (Hv := verdict_departure d 0%Q H1). place Hv Hk.
  - intros [H1 H2].
    assert (Hz : (0 == 0)%Q \/ (0 == 360)%Q) by (by left).
    assert (Hv := verdict_heading d 0%Q H2 H1 Hz). place Hv Hk.
  - intros H1. assert (Hv := verdict_far d 0%Q H1). place Hv Hk.
Qed.

Lemma null_heading_never_arrival_witness :
  exists r d,
    classify Samples.glibc 0 0 Samples.equator_feed = Return r
    /\ haversine Samples.glibc 0 0 0 Samples.lon_100_km = Return d
    /\ (d == 100)%Q
    /\ In (info_of (Samples.on_equator Samples.lon_100_km None)
             0 Samples.lon_100_km d) (others r).
Proof.
  destruct (classify Samples.glibc 0 0 Samples.equator_feed) as [r|e] eqn:Hr;
    [|vm_compute in Hr; discriminate Hr].
  destruct (null_heading_never_arrival Samples.glibc 0 0
              Samples.equator_feed r
              (Samples.on_equator Samples.lon_100_km None)
              0 Samples.lon_100_km Hr)
    as (d & Hd & _ & _ & _ & Hoth & _);
    [do 3 right; left; reflexivity | reflexivity | reflexivity | reflexivity |].
  assert (Heq : (d == 100)%Q).
  { vm_compute in Hd. injection Hd as <-. reflexivity. }
  exists r, d. split; [reflexivity|]. split; [exact Hd|].
  split; [exact Heq|]. apply Hoth. Lqa.lra.
Defined.

End TrafficClaims.

(** ** Outcomes of the airport queries *)

Section AirportOutcomes.

Import Weather.
Local Open Scope string_scope.

(** C9, on the failing input. For the airport at (64.452, 111.099) and a
    feed record at (-64.4520008, -68.901), near its antipode, the value
    under the square root comes out as 1.0000000000000004, its root as
    1.0000000000000002, and [math.asin] raises: the traffic query for
    this known airport ends in [ValueError], which is none of NotFound,
    Unconfigured or a payload. *)
Theorem traffic_query_raises_near_antipode :
  Traffic.haversine Samples.glibc
    (ap_lat Samples.far_airport) (ap_lon Samples.far_airport)
    (-4535406356033795 # 70368744177664) (-4848476842585227 # 70368744177664)
  = Raise ValueError
  /\ forall w,
       opensky w = Samples.feed_of [Samples.antipodal_vector] ->
       Traffic.api_airport_traffic Samples.glibc w [Samples.far_airport] "far"
       = (Raise ValueError, [OpenSkyCall])
       /\ fst (Traffic.api_airport_traffic Samples.glibc w
                 [Samples.far_airport] "far") <> Return NotFound
       /\ forall p,
            fst (Traffic.api_airport_traffic Samples.glibc w
                   [Samples.far_airport] "far") <> Return (Ok p).
Proof.
  split; [vm_compute; reflexivity|].
  intros w Hw.
  assert (H : Traffic.api_airport_traffic Samples.glibc w
                [Samples.far_airport] "far"
              = (Raise ValueError, [OpenSkyCall])).
  { unfold Traffic.api_airport_traffic.
    change (airport_by_code [Samples.far_airport] (Text.upper "far"))
      with (Some Samples.far_airport).
    unfold fetch_opensky_states. rewrite Hw. vm_compute. reflexivity. }
  rewrite H. split; [reflexivity|]. split; [discriminate|].
  intros p. discriminate.
Qed.

(** X27. What the two airport queries can answer. Unknown code:
    NotFound on both, with no outside request. Weather query: exactly one
    of NotFound, Unconfigured (known code, no provider key or a falsy
    body) or a payload. Traffic query: NotFound, a payload, or
    [ValueError] raised by the distance computation for some record of
    the feed; it asks the feed once and never the weather provider. *)
Theorem airport_query_outcomes_or_abort
    (m : Math.libm) (w : world) (airports : list airport) (code : string) :
  let found := airport_by_code airports (Text.upper code) in
  let rw := api_airport_weather w airports code in
  let rt := Traffic.api_airport_traffic m w airports code in
  (found = None -> rw = (NotFound, []) /\ rt = (Return NotFound, []))
  /\ (forall ap, found = Some ap ->
        OPENWEATHER_API_KEY w = None \/ OPENWEATHER_API_KEY w = Some "" ->
        rw = (Unconfigured, []))
  /\ (@NotFound body <> Unconfigured
      /\ forall p, @NotFound body <> Ok p /\ @Unconfigured body <> Ok p)
  /\ (fst rw = NotFound /\ found = None
      \/ fst rw = Unconfigured /\ found <> None
      \/ exists p, fst rw = Ok p /\ found <> None)
  /\ (fst rt = Return NotFound /\ found = None
      \/ (exists p, fst rt = Return (Ok p)) /\ found <> None
         /\ snd rt = [OpenSkyCall]
      \/ exists ap s lat lon,
           fst rt = Raise ValueError /\ found = Some ap
           /\ snd rt = [OpenSkyCall]
           /\ In s (Py.or_nil (states (opensky w)))
           /\ sv_lat s = Some lat /\ sv_lon s = Some lon
           /\ Traffic.haversine m (ap_lat ap) (ap_lon ap) lat lon
              = Raise ValueError)
  /\ (forall lat lon key, ~ In (OpenWeatherCall lat lon key) (snd rt)).
Proof.
  cbv zeta. unfold api_airport_weather, Traffic.api_airport_traffic.
  destruct (airport_by_code airports (Text.upper code)) as [ap|].
  - split; [discriminate|]. split; [|split; [|split; [|split]]].
    + intros ? _ Hkey. unfold fetch_openweather.
      by destruct Hkey as [-> | ->].
    + split; [discriminate|]. intros p. split; discriminate.
    + destruct (fetch_openweather w (ap_lat ap) (ap_lon ap)) as [[obs|] calls];
        cbn [fst]; [right; right; eexists; split; [reflexivity|discriminate]|].
      right; left. split; [reflexivity|discriminate].
    + right. cbn [fetch_opensky_states fst snd].
      destruct (Traffic.classify m (ap_lat ap) (ap_lon ap)
                  (Py.or_nil (states (opensky w)))) as [r|e] eqn:Hr;
        cbn [bind].
      * left. split; [by eexists|]. split; [discriminate|reflexivity].
      * right. destruct e.
        apply classify_raise in Hr as (s & Hs & He).
        apply single_raise in He as (lat & lon & Hlat & Hlon & Hd).
        exists ap, s, lat, lon. by repeat split.
    + cbn [fetch_opensky_states snd]. intros lat lon key [H|[]]. discriminate H.
  - split; [by split|]. split; [discriminate|]. split; [|split; [|split]].
    + split; [discriminate|]. intros p. split; discriminate.
    + left. by split.
    + left. by split.
    + intros lat lon key [].
Qed.

End AirportOutcomes.

(** * Further properties of the handlers *)

(** ** Trimming *)

Section StripFacts.

Import Text.
Local Open Scope string_scope.

Lemma lstrip_head (s : string) :
  lstrip s = "" \/ exists c t, lstrip s = String c t /\ is_space c = false.
Proof.
  induction s as [|c s IH]; simpl; [by left|].
  destruct (is_space c) eqn:E; [exact IH|]. right. by exists c, s.
Qed.

Lemma rstrip_head (c : ascii) (t : string) :
  is_space c = false -> exists t', rstrip (String c t) = String c t'.
Proof.
  intros Hc. simpl. rewrite Hc. destruct (rstrip t); eauto.
Qed.

Lemma rstrip_idem (s : string) : rstrip (rstrip s) = rstrip s.
Proof.
  induction s as [|c s IH]; [reflexivity|].
  cbn [rstrip]. destruct (rstrip s) as [|d t'] eqn:E.
  - destruct (is_space c) eqn:Ec; [reflexivity|]. simpl. by rewrite Ec.
  - cbn [rstrip]. cbn [rstrip] in IH. by rewrite IH.
Qed.

Lemma strip_idem (s : string) : strip (strip s) = strip s.
Proof.
  unfold strip. destruct (lstrip_head s) as [->|(c & t & -> & Hc)];
    [reflexivity|].
  destruct (rstrip_head c t Hc) as [t' E]. rewrite E.
  cbn [lstrip]. rewrite Hc, <- E. apply rstrip_idem.
Qed.

Lemma strip_head (s : string) (c : ascii) (t : string) :
  strip s = String c t -> is_space c = false.
Proof.
  unfold strip. destruct (lstrip_head s) as [->|(d & u & -> & Hd)];
    [discriminate|].
  destruct (rstrip_head d u Hd) as [t' ->]. by intros [= <- _].
Qed.

End StripFacts.

(** ** Live flights, continued *)

Section LiveMore.

Import Live.

Lemma or_nil_some {A : Type} (l : list A) : Py.or_nil (Some l) = l.
Proof. by destruct l. Qed.

Lemma store_snapshots_app (fls : list flight) (table : list snapshot) :
  store_snapshots fls table = table ++ map snapshot_row (firstn 100 fls).
Proof.
  unfold store_snapshots. revert table.
  induction (firstn 100 fls) as [|f l IH]; intros table; simpl.
  - by rewrite app_nil_r.
  - by rewrite IH, <- app_assoc.
Qed.

Lemma live_flights_app (b : bounds) (min_alt max_alt : Q) (cs : string)
    (ts : Z) (sts1 sts2 : list state_vector) :
  live_flights b min_alt max_alt cs ts (sts1 ++ sts2)
  = live_flights b min_alt max_alt cs ts sts1
    ++ live_flights b min_alt max_alt cs ts sts2.
Proof.
  rewrite !live_flights_filter. unfold region_filter.
  by rewrite omap_app, List.filter_app.
Qed.

Lemma live_flights_length (b : bounds) (min_alt max_alt : Q) (cs : string)
    (ts : Z) (sts : list state_vector) :
  (List.length (live_flights b min_alt max_alt cs ts sts)
   <= List.length sts)%nat.
Proof.
  induction sts as [|s sts IH] using rev_ind; [simpl; lia|].
  rewrite live_flights_app, !length_app.
  assert (List.length (live_flights b min_alt max_alt cs ts [s]) <= 1)%nat.
  { rewrite live_flights_filter. unfold region_filter. simpl.
    destruct (parse_state ts s); simpl; [|lia].
    destruct (keeps _ _ _ _ _); simpl; lia. }
  simpl. lia.
Qed.

Lemma filter_sublist_implies {A : Type} (p q : A -> bool) (l : list A) :
  (forall x, p x = true -> q x = true) ->
  List.filter p l `sublist_of` List.filter q l.
Proof.
  intros Hpq. induction l as [|x l IH]; simpl; [constructor|].
  destruct (p x) eqn:Ep.
  - rewrite (Hpq _ Ep). by constructor.
  - destruct (q x); [by constructor|exact IH].
Qed.

(** X1. The reported count is the number of flights returned, never more
    than the number of state vectors in the feed; the handler appends at
    most 100 rows per call, exactly [min 100 count], after the rows
    already stored. *)
Theorem live_count_and_snapshot_cap
    (now : Z) (a : args) (data : response) (table : list snapshot) :
  let r := api_flights_live now a data table in
  count (fst r) = List.length (flights (fst r))
  /\ (count (fst r) <= List.length (Py.or_nil (states data)))%nat
  /\ firstn (List.length table) (snd r) = table
  /\ List.length (snd r)
     = (List.length table + Nat.min 100 (count (fst r)))%nat.
Proof.
  cbv zeta. unfold api_flights_live; cbn [fst snd count flights].
  split; [reflexivity|]. split; [apply live_flights_length|].
  rewrite store_snapshots_app. split.
  - by rewrite take_app_length.
  - by rewrite length_app, length_map, length_firstn.
Qed.

(** X2. A state vector whose latitude or longitude is null is skipped
    wherever it stands in the feed: removing it changes neither the
    answer nor the rows stored. A feed made only of such vectors, or an
    empty one, gives count 0 and stores nothing. *)
Theorem live_skips_vectors_without_position
    (now : Z) (a : args) (t : option Z) (table : list snapshot)
    (pre post : list state_vector) (s : state_vector) :
  Measure.has_position s = false ->
  api_flights_live now a {| time := t; states := Some (pre ++ s :: post) |} table
  = api_flights_live now a {| time := t; states := Some (pre ++ post) |} table
  /\ (forall sts,
        List.Forall (fun s' => Measure.has_position s' = false) sts ->
        api_flights_live now a {| time := t; states := Some sts |} table
        = ({| count := 0; flights := [] |}, table)).
Proof.
  intros Hs.
  assert (Hskip : forall b mn mx cs ts s',
            Measure.has_position s' = false ->
            live_flights b mn mx cs ts [s'] = []).
  { intros b mn mx cs ts s' Hp. rewrite live_flights_filter. simpl.
    unfold parse_state, Measure.has_position in *.
    by destruct (sv_lat s'), (sv_lon s'). }
  split.
  - unfold api_flights_live. cbn [states time]. rewrite !or_nil_some.
    change (pre ++ s :: post) with (pre ++ [s] ++ post).
    by rewrite !live_flights_app, Hskip.
  - intros sts Hall. unfold api_flights_live. cbn [states time].
    rewrite or_nil_some.
    assert (Hnil : forall b mn mx cs ts,
              live_flights b mn mx cs ts sts = []).
    { intros b mn mx cs ts. induction Hall as [|s' sts Hs' _ IH];
        [reflexivity|].
      change (s' :: sts) with ([s'] ++ sts).
      by rewrite live_flights_app, Hskip, IH. }
    rewrite Hnil. by rewrite store_snapshots_app, app_nil_r.
Qed.

Lemma live_skips_vectors_without_position_witness :
  api_flights_live 0 (Samples.search "ai")
    {| time := None;
       states := Some ([Samples.padded_vector]
                       ++ Samples.vector None None (Some 70%Q) None None
                       :: []) |} []
  = api_flights_live 0 (Samples.search "ai")
      {| time := None; states := Some ([Samples.padded_vector] ++ []) |} [].
Proof.
  apply (live_skips_vectors_without_position 0 (Samples.search "ai") None []
           [Samples.padded_vector] []
           (Samples.vector None None (Some 70%Q) None None)).
  reflexivity.
Defined.

(** X3. Splitting a feed in two and filtering the parts gives the same
    flights, in the same order, as filtering the whole: the answer for
    [sts1 ++ sts2] is the concatenation of the answers and the counts
    add up. *)
Theorem live_flights_of_concatenated_feed
    (now : Z) (a : args) (t : option Z) (table1 table2 table : list snapshot)
    (sts1 sts2 : list state_vector) :
  let whole := fst (api_flights_live now a
                      {| time := t; states := Some (sts1 ++ sts2) |} table) in
  let part1 := fst (api_flights_live now a
                      {| time := t; states := Some sts1 |} table1) in
  let part2 := fst (api_flights_live now a
                      {| time := t; states := Some sts2 |} table2) in
  flights whole = flights part1 ++ flights part2
  /\ count whole = (count part1 + count part2)%nat.
Proof.
  cbv zeta. unfold api_flights_live; cbn [fst flights count states time].
  rewrite !or_nil_some, live_flights_app. split; [reflexivity|].
  apply length_app.
Qed.

(** X4. Every flight returned carries a callsign without surrounding
    whitespace (trimming it again changes nothing, and its first
    character is not a space) and the feed's [time] as timestamp, or the
    clock reading when the feed has none. *)
Theorem live_callsign_trimmed_and_timestamped
    (now : Z) (a : args) (data : response) (table : list snapshot)
    (f : flight) :
  In f (flights (fst (api_flights_live now a data table))) ->
  Text.strip (fl_callsign f) = fl_callsign f
  /\ (forall c rest, fl_callsign f = String c rest -> Text.is_space c = false)
  /\ fl_timestamp f = match time data with Some t => t | None => now end.
Proof.
  unfold api_flights_live; cbn [fst flights]. intros Hf.
  apply in_live_flights in Hf as [(s & _ & Hp) _].
  unfold parse_state in Hp.
  destruct (sv_lat s), (sv_lon s); try discriminate.
  injection Hp as <-. cbn [fl_callsign fl_timestamp].
  split; [apply strip_idem|]. split; [apply strip_head|]. reflexivity.
Qed.

Lemma live_callsign_trimmed_and_timestamped_witness :
  Text.strip "AI101" = "AI101"%string.
Proof.
  apply (live_callsign_trimmed_and_timestamped 0 (Samples.search "ai")
           (Samples.feed_of [Samples.padded_vector]) []
           (Build_flight "800a01" "AI101" "India" 10 70 1000 230 90 1700000000)).
  left; reflexivity.
Defined.

End LiveMore.

Section LiveFilters.

Import Live.

Lemma between_true (a x b : Q) :
  Py.between a x b = true <-> (a <= x <= b)%Q.
Proof.
  unfold Py.between. by rewrite andb_true_iff, !Qle_bool_iff.
Qed.

(** X5. A search text that is absent, empty or only whitespace is no
    search at all: the answer and the rows stored are those of a request
    without [callsign], and a parsed record is returned exactly when it
    lies within the region and the altitude range. *)
Theorem live_blank_search_is_no_filter
    (now : Z) (a : args) (data : response) (table : list snapshot)
    (q : string) :
  arg_callsign a = Some q -> Text.strip q = EmptyString ->
  api_flights_live now a data table
  = api_flights_live now
      {| arg_min_alt := arg_min_alt a; arg_max_alt := arg_max_alt a;
         arg_callsign := None |} data table
  /\ (forall f,
        In f (flights (fst (api_flights_live now a data table)))
        <-> (exists s, In s (Py.or_nil (states data))
                       /\ parse_state (Py.get (time data) now) s = Some f)
            /\ in_bounds REGION_BOUNDS (fl_lat f) (fl_lon f) = true
            /\ Py.between (Py.get (arg_min_alt a) 0%Q) (fl_altitude f)
                          (Py.get (arg_max_alt a) 50000%Q) = true).
Proof.
  intros Hq Hblank. unfold api_flights_live. cbn [arg_min_alt arg_max_alt
    arg_callsign fst flights]. rewrite Hq. cbn [Py.get]. rewrite Hblank.
  split; [reflexivity|]. intros f. rewrite in_live_flights. unfold keeps.
  cbn [Text.upper Text.map_chars Text.truthy negb orb].
  rewrite andb_true_r, andb_true_iff. tauto.
Qed.

Lemma live_blank_search_is_no_filter_witness :
  Live.api_flights_live 0 (Samples.search "   ")
    (Samples.feed_of [Samples.padded_vector]) []
  = Live.api_flights_live 0
      {| arg_min_alt := None; arg_max_alt := None; arg_callsign := None |}
      (Samples.feed_of [Samples.padded_vector]) [].
Proof.
  apply (live_blank_search_is_no_filter 0 (Samples.search "   ")
           (Samples.feed_of [Samples.padded_vector]) [] "   ");
    reflexivity.
Defined.

(** X6. Widening the altitude range never loses a flight: the answer for
    the narrower range is a subsequence of the answer for the wider one,
    all else equal. *)
Theorem live_altitude_range_monotone
    (b : bounds) (lo hi lo' hi' : Q) (cs : string) (ts : Z)
    (sts : list state_vector) :
  (lo' <= lo)%Q -> (hi <= hi')%Q ->
  live_flights b lo hi cs ts sts `sublist_of` live_flights b lo' hi' cs ts sts.
Proof.
  intros Hlo Hhi. rewrite !live_flights_filter. unfold region_filter.
  apply filter_sublist_implies. intros f. unfold keeps.
  rewrite !andb_true_iff, !between_true.
  intros [[Hb [H1 H2]] Hc]. repeat split; try assumption.
  - eapply Qle_trans; eassumption.
  - eapply Qle_trans; eassumption.
Qed.

Lemma live_altitude_range_monotone_witness :
  live_flights REGION_BOUNDS 500 2000 "" 0 [Samples.padded_vector]
  `sublist_of`
  live_flights REGION_BOUNDS 0 50000 "" 0 [Samples.padded_vector].
Proof.
  apply (live_altitude_range_monotone REGION_BOUNDS 500 2000 0 50000 "" 0
           [Samples.padded_vector]); unfold Qle; simpl; lia.
Defined.

(** X7. A missing barometric altitude, velocity or heading is reported as
    0. With the default range 0 to 50000 and no search text, a vector
    inside the region without an altitude is therefore returned, with
    altitude 0. *)
Theorem live_null_altitude_kept_by_default
    (now : Z) (data : response) (table : list snapshot)
    (s : state_vector) (lat lon : Q) :
  In s (Py.or_nil (states data)) ->
  sv_lat s = Some lat -> sv_lon s = Some lon ->
  in_bounds REGION_BOUNDS lat lon = true ->
  sv_baro_altitude s = None ->
  exists f,
    In f (flights (fst (api_flights_live now
            {| arg_min_alt := None; arg_max_alt := None;
               arg_callsign := None |} data table)))
    /\ parse_state (Py.get (time data) now) s = Some f
    /\ fl_altitude f = 0%Q
    /\ (sv_velocity s = None -> fl_velocity f = 0%Q)
    /\ (sv_heading s = None -> fl_heading f = 0%Q).
Proof.
  intros Hs Hlat Hlon Hb Halt.
  assert (Hp : parse_state (Py.get (time data) now) s
    = Some {| fl_icao24 := sv_icao24 s;
              fl_callsign := Text.strip (Py.or_empty (sv_callsign s));
              fl_origin_country := sv_origin_country s;
              fl_lat := lat; fl_lon := lon; fl_altitude := 0;
              fl_velocity := Py.or_zero (sv_velocity s);
              fl_heading := Py.or_zero (sv_heading s);
              fl_timestamp := Py.get (time data) now |}).
  { unfold parse_state. by rewrite Hlat, Hlon, Halt. }
  eexists. split; [|split; [exact Hp|]].
  - unfold api_flights_live; cbn [fst flights arg_min_alt arg_max_alt
      arg_callsign Py.get]. apply in_live_flights. split; [eauto|].
    unfold keeps. cbn [fl_lat fl_lon fl_altitude]. by rewrite Hb.
  - cbn [fl_altitude fl_velocity fl_heading].
    split; [reflexivity|]. split; by intros ->.
Qed.

Lemma live_null_altitude_kept_by_default_witness :
  exists f,
    In f (flights (fst (api_flights_live 0
            {| arg_min_alt := None; arg_max_alt := None;
               arg_callsign := None |}
            (Samples.feed_of
               [Samples.vector None (Some 10%Q) (Some 70%Q) None None]) [])))
    /\ fl_altitude f = 0%Q.
Proof.
  destruct (live_null_altitude_kept_by_default 0
              (Samples.feed_of
                 [Samples.vector None (Some 10%Q) (Some 70%Q) None None]) []
              (Samples.vector None (Some 10%Q) (Some 70%Q) None None) 10 70)
    as (f & Hin & _ & Halt & _);
    [left; reflexivity | reflexivity ..|].
  by exists f.
Defined.

End LiveFilters.

(** ** Congestion statistics, continued *)

Section StatsMore.

Import Stats.

Lemma count_since_app (t : Z) (rows rows' : list snapshot) :
  count_since t (rows ++ rows')
  = (count_since t rows + count_since t rows')%nat.
Proof. unfold count_since. by rewrite List.filter_app, length_app. Qed.

Lemma count_since_le (t : Z) (rows : list snapshot) :
  (count_since t rows <= List.length rows)%nat.
Proof. unfold count_since. apply List.filter_length_le. Qed.

Lemma congestion_monotone (n m : nat) :
  (n <= m)%nat ->
  (Measure.level_rank (congestion n) <= Measure.level_rank (congestion m))%nat.
Proof.
  intros Hnm. unfold congestion.
  destruct (Nat.ltb_spec n 50), (Nat.ltb_spec m 50),
           (Nat.ltb_spec n 150), (Nat.ltb_spec m 150); simpl; lia.
Qed.

Lemma total_add_to_group (h : Z) (groups : list (Z * nat)) :
  Measure.total (add_to_group h groups) = S (Measure.total groups).
Proof.
  induction groups as [|[k c] rest IH]; simpl; [reflexivity|].
  destruct (h =? k)%Z; [simpl; lia|].
  destruct (k <? h)%Z; simpl; [lia|]. rewrite IH. lia.
Qed.

Lemma total_firstn (n : nat) (groups : list (Z * nat)) :
  (Measure.total (firstn n groups) <= Measure.total groups)%nat.
Proof.
  revert n. induction groups as [|p rest IH]; intros [|n]; simpl; try lia.
  specialize (IH n). lia.
Qed.

Lemma rows_in_hour_app (h : Z) (rows rows' : list snapshot) :
  rows_in_hour h (rows ++ rows')
  = (rows_in_hour h rows + rows_in_hour h rows')%nat.
Proof. unfold rows_in_hour. by rewrite List.filter_app, length_app. Qed.

Lemma rows_in_hour_perm (h : Z) (rows rows' : list snapshot) :
  Permutation rows rows' -> rows_in_hour h rows = rows_in_hour h rows'.
Proof.
  unfold rows_in_hour. induction 1 as [|x l l' _ IH|x y l|l l' l'' _ IH1 _ IH2];
    simpl.
  - reflexivity.
  - destruct (hour_bucket x =? h)%Z; simpl; by rewrite IH.
  - by destruct (hour_bucket x =? h)%Z, (hour_bucket y =? h)%Z.
  - by rewrite IH1.
Qed.

Lemma count_since_perm (t : Z) (rows rows' : list snapshot) :
  Permutation rows rows' -> count_since t rows = count_since t rows'.
Proof.
  unfold count_since. induction 1 as [|x l l' _ IH|x y l|l l' l'' _ IH1 _ IH2];
    simpl.
  - reflexivity.
  - destruct (t <=? snap_timestamp x)%Z; simpl; by rewrite IH.
  - by destruct (t <=? snap_timestamp x)%Z, (t <=? snap_timestamp y)%Z.
  - by rewrite IH1.
Qed.

Lemma recorded_above (k : Z) (rest : list (Z * nat)) (x : Z) :
  List.Forall (fun q => (fst q < k)%Z) rest -> (k <= x)%Z ->
  recorded x rest = 0%nat.
Proof.
  induction 1 as [|[k' d'] rest Hk' _ IH]; intros Hx; [reflexivity|].
  simpl in *. destruct (Z.eqb_spec k' x); [lia|]. by apply IH.
Qed.

(** Descending groups with positive counts are determined by the counts
    they record. *)
Lemma groups_determined (g1 g2 : list (Z * nat)) :
  descending g1 -> descending g2 ->
  List.Forall (fun q => (0 < snd q)%nat) g1 ->
  List.Forall (fun q => (0 < snd q)%nat) g2 ->
  (forall h, recorded h g1 = recorded h g2) -> g1 = g2.
Proof.
  unfold descending. revert g2.
  induction g1 as [|[k1 c1] r1 IH]; intros [|[k2 c2] r2] Hd1 Hd2 Hp1 Hp2 Hrec.
  - reflexivity.
  - inversion_clear Hp2 as [|? ? Hc2 _]. specialize (Hrec k2). simpl in *.
    rewrite Z.eqb_refl in Hrec. lia.
  - inversion_clear Hp1 as [|? ? Hc1 _]. specialize (Hrec k1). simpl in *.
    rewrite Z.eqb_refl in Hrec. lia.
  - apply StronglySorted_inv in Hd1 as [Hd1 Hk1].
    apply StronglySorted_inv in Hd2 as [Hd2 Hk2].
    inversion_clear Hp1 as [|? ? Hc1 Hp1']. inversion_clear Hp2 as [|? ? Hc2 Hp2'].
    simpl in Hc1, Hc2.
    assert (Hz1 := fun x => recorded_above k1 r1 x Hk1).
    assert (Hz2 := fun x => recorded_above k2 r2 x Hk2).
    assert (Hk : k1 = k2).
    { destruct (Z.lt_trichotomy k1 k2) as [Hlt|[Heq|Hgt]]; [|exact Heq|].
      - specialize (Hrec k2). simpl in Hrec. rewrite Z.eqb_refl in Hrec.
        destruct (Z.eqb_spec k1 k2); [lia|].
        rewrite Hz1, Hz2 in Hrec; lia.
      - specialize (Hrec k1). simpl in Hrec. rewrite Z.eqb_refl in Hrec.
        destruct (Z.eqb_spec k2 k1); [lia|].
        rewrite Hz1, Hz2 in Hrec; lia. }
    subst k2.
    assert (Hc : c1 = c2).
    { specialize (Hrec k1). simpl in Hrec. rewrite Z.eqb_refl in Hrec.
      rewrite Hz1, Hz2 in Hrec; lia. }
    subst c2. f_equal. apply IH; try assumption.
    intros h. specialize (Hrec h). simpl in Hrec.
    destruct (Z.eqb_spec k1 h) as [Heq|Hne]; [|lia].
    rewrite Hz1, Hz2; lia.
Qed.

(** X8. The grouped query accounts for every stored row exactly once:
    the counts of all buckets add up to the number of rows. The summary
    returns at most 24 buckets, and their counts add up to no more than
    the number of rows. *)
Theorem hourly_counts_account_for_rows (now : Z) (table : list snapshot) :
  Measure.total (group_by_hour table) = List.length table
  /\ (forall limit,
        (List.length (hourly_buckets limit table) <= limit)%nat
        /\ (Measure.total (hourly_buckets limit table)
            <= List.length table)%nat)
  /\ (List.length (flights_per_hour (api_stats_summary now table)) <= 24)%nat.
Proof.
  assert (Htot : Measure.total (group_by_hour table) = List.length table).
  { unfold group_by_hour.
    enough (forall acc,
      Measure.total
        (fold_left (fun groups r => add_to_group (hour_bucket r) groups)
                   table acc)
      = (Measure.total acc + List.length table)%nat) as H by apply (H []).
    induction table as [|r table IH]; intros acc; simpl; [lia|].
    rewrite IH, total_add_to_group. lia. }
  split; [exact Htot|]. split.
  - intros limit. unfold hourly_buckets. split.
    + rewrite length_firstn. lia.
    + rewrite <- Htot. apply total_firstn.
  - cbn [api_stats_summary flights_per_hour]. unfold hourly_buckets.
    rewrite length_firstn. lia.
Qed.

(** X9. Storing more rows never lowers the summary: for a fixed clock
    reading the recent count and the congestion level of a table with
    rows appended are at least those of the table, and the recent count
    never exceeds the number of rows. *)
Theorem appending_rows_never_lowers_congestion
    (now : Z) (table rows : list snapshot) :
  let before := api_stats_summary now table in
  let after := api_stats_summary now (table ++ rows) in
  (recent_snapshot_count before <= recent_snapshot_count after)%nat
  /\ (Measure.level_rank (congestion_level before)
      <= Measure.level_rank (congestion_level after))%nat
  /\ (recent_snapshot_count after <= List.length (table ++ rows))%nat.
Proof.
  cbv zeta. cbn [api_stats_summary recent_snapshot_count congestion_level].
  rewrite count_since_app. split; [lia|]. split.
  - apply congestion_monotone. lia.
  - rewrite <- count_since_app. apply count_since_le.
Qed.

(** X10. The summary does not depend on the order in which the rows were
    stored: two tables with the same rows in any order give the same
    recent count, level and hourly buckets. *)
Theorem summary_independent_of_row_order
    (now : Z) (table table' : list snapshot) :
  Permutation table table' ->
  api_stats_summary now table = api_stats_summary now table'.
Proof.
  intros Hperm. unfold api_stats_summary, hourly_buckets.
  rewrite (count_since_perm _ _ _ Hperm).
  replace (group_by_hour table') with (group_by_hour table); [reflexivity|].
  destruct (group_by_hour_invariant table) as (Hd & Hp & Hc).
  destruct (group_by_hour_invariant table') as (Hd' & Hp' & Hc').
  apply groups_determined; try assumption.
  intros h. by rewrite Hc, Hc', (rows_in_hour_perm _ _ _ Hperm).
Qed.

Lemma summary_independent_of_row_order_witness :
  api_stats_summary 4000 [Samples.row_at 3500; Samples.row_at 7300]
  = api_stats_summary 4000 [Samples.row_at 7300; Samples.row_at 3500].
Proof.
  apply (summary_independent_of_row_order 4000
           [Samples.row_at 3500; Samples.row_at 7300]
           [Samples.row_at 7300; Samples.row_at 3500]).
  apply perm_swap.
Defined.

End StatsMore.

(** ** Ingestion followed by the summary *)

Section IngestThenSummary.

Import Live Stats.

Lemma live_flights_timestamp (b : bounds) (mn mx : Q) (cs : string) (ts : Z)
    (sts : list state_vector) :
  List.Forall (fun f => fl_timestamp f = ts) (live_flights b mn mx cs ts sts).
Proof.
  apply List.Forall_forall. intros f Hf.
  apply in_live_flights in Hf as [(s & _ & Hp) _]. unfold parse_state in Hp.
  destruct (sv_lat s), (sv_lon s); try discriminate. by injection Hp as <-.
Qed.

Lemma count_since_stamped (t ts : Z) (fls : list flight) :
  List.Forall (fun f => fl_timestamp f = ts) fls ->
  count_since t (map snapshot_row fls)
  = if (t <=? ts)%Z then List.length fls else 0%nat.
Proof.
  unfold count_since. induction 1 as [|f fls Hf _ IH]; simpl.
  - by destruct (t <=? ts)%Z.
  - rewrite Hf. destruct (t <=? ts)%Z; simpl; by rewrite IH.
Qed.

Lemma rows_in_hour_stamped (h ts : Z) (fls : list flight) :
  List.Forall (fun f => fl_timestamp f = ts) fls ->
  rows_in_hour h (map snapshot_row fls)
  = if (Z.quot ts 3600 =? h)%Z then List.length fls else 0%nat.
Proof.
  unfold rows_in_hour, hour_bucket. induction 1 as [|f fls Hf _ IH]; simpl.
  - by destruct (_ =? _)%Z.
  - rewrite Hf. destruct (_ =? _)%Z; simpl; by rewrite IH.
Qed.

Lemma Forall_firstn {A : Type} (P : A -> Prop) (n : nat) (l : list A) :
  List.Forall P l -> List.Forall P (firstn n l).
Proof.
  intros H. revert n. induction H as [|x l Hx _ IH]; intros [|n]; simpl;
    constructor; auto.
Qed.

(** X11. What one ingestion adds to the next summary. With [ts] the
    feed's time (or the clock reading without one) and [k = min 100
    count] the number of rows stored: a summary computed at [now'] counts
    [k] more recent rows when [ts >= now' - 600] and the same number
    otherwise, and all [k] rows fall into the single bucket [ts/3600]. *)
Theorem summary_after_ingestion
    (now now' : Z) (a : args) (data : response) (table : list snapshot) :
  let r := api_flights_live now a data table in
  let ts := Py.get (time data) now in
  let k := Nat.min 100 (count (fst r)) in
  recent_snapshot_count (api_stats_summary now' (snd r))
  = (recent_snapshot_count (api_stats_summary now' table)
     + if (now' - 600 <=? ts)%Z then k else 0)%nat
  /\ (forall h, rows_in_hour h (snd r)
                = (rows_in_hour h table
                   + if (Z.quot ts 3600 =? h)%Z then k else 0)%nat).
Proof.
  cbv zeta. unfold api_flights_live; cbn [fst snd count flights].
  rewrite store_snapshots_app.
  set (fls := live_flights _ _ _ _ _ _).
  assert (Hts : List.Forall
            (fun f => fl_timestamp f = Py.get (time data) now)
            (firstn 100 fls))
    by apply Forall_firstn, live_flights_timestamp.
  cbn [api_stats_summary recent_snapshot_count]. split.
  - rewrite count_since_app, (count_since_stamped _ _ _ Hts), length_firstn.
    reflexivity.
  - intros h.
    rewrite rows_in_hour_app, (rows_in_hour_stamped _ _ _ Hts), length_firstn.
    reflexivity.
Qed.

End IngestThenSummary.

(** ** Weather, continued *)

Section WeatherMore.

Import Weather.
Local Open Scope string_scope.

Lemma same_key_of_same_case (code code' : string) :
  Text.lower code = Text.lower code' -> Text.upper code = Text.upper code'.
Proof.
  intros H. by rewrite <- (upper_lower code), <- (upper_lower code'), H.
Qed.

Lemma airport_by_code_found (airports : list airport) (code : string)
    (ap : airport) :
  airport_by_code airports code = Some ap -> In ap airports /\ ap_code ap = code.
Proof.
  unfold airport_by_code. intros H. apply List.find_some in H as [Hin Heq].
  split; [exact Hin|]. by apply String.eqb_eq.
Qed.

(** X12. A stronger wind never lowers the risk: for the same condition
    text the risk at wind speed [v'] is at least the risk at [v <= v']. *)
Theorem risk_monotone_in_wind (condition : string) (v v' : Q) :
  (v <= v')%Q ->
  (Measure.risk_rank (risk condition v)
   <= Measure.risk_rank (risk condition v'))%nat.
Proof.
  intros Hv. unfold risk.
  destruct (Text.str_in "storm" _ || Text.str_in "thunder" _); cbn [orb];
    [simpl; lia|].
  destruct (Py.Qlt_bool 15 v) eqn:E.
  - apply Qlt_bool_iff in E.
    assert (E' : Py.Qlt_bool 15 v' = true)
      by (apply Qlt_bool_iff; eapply Qlt_le_trans; eassumption).
    rewrite E'. simpl; lia.
  - destruct (Py.Qlt_bool 15 v'); [|lia].
    destruct (_ || _); simpl; lia.
Qed.

Lemma risk_monotone_in_wind_witness :
  (Measure.risk_rank (risk "light rain" 5)
   <= Measure.risk_rank (risk "light rain" 20))%nat.
Proof.
  apply (risk_monotone_in_wind "light rain" 5 20). unfold Qle; simpl; lia.
Defined.

(** X13. For a known airport and a configured key the weather query makes
    exactly one request, with the coordinates stored for that airport and
    the key; a falsy body answers Unconfigured, and otherwise the payload
    repeats the airport row, the observed temperature, description and
    wind, with the risk computed from the main condition and the wind. *)
Theorem weather_query_single_request
    (w : world) (airports : list airport) (code key : string) (ap : airport) :
  airport_by_code airports (Text.upper code) = Some ap ->
  OPENWEATHER_API_KEY w = Some key -> key <> "" ->
  let r := api_airport_weather w airports code in
  snd r = [OpenWeatherCall (ap_lat ap) (ap_lon ap) key]
  /\ In ap airports
  /\ (openweather w (ap_lat ap) (ap_lon ap) key = None ->
      fst r = Unconfigured)
  /\ (forall obs, openweather w (ap_lat ap) (ap_lon ap) key = Some obs ->
      exists p, fst r = Ok p
        /\ w_airport p = Text.upper code /\ w_name p = ap_name ap
        /\ w_city p = ap_city ap /\ w_country p = ap_country ap
        /\ w_temp p = main_temp obs
        /\ w_condition p = weather_description obs
        /\ w_wind_speed p = wind_speed obs
        /\ w_risk p = risk (weather_main obs) (wind_speed obs)).
Proof.
  intros Hap Hkey Hne. cbv zeta.
  destruct (airport_by_code_found _ _ _ Hap) as [Hin Hcode].
  unfold api_airport_weather, fetch_openweather. rewrite Hap, Hkey.
  destruct key as [|c key]; [contradiction|]. cbn [Text.truthy].
  destruct (openweather w (ap_lat ap) (ap_lon ap) (String c key)) as [obs|];
    cbn [fst snd].
  - split; [reflexivity|]. split; [exact Hin|]. split; [discriminate|].
    intros obs' [= <-]. eexists. split; [reflexivity|].
    cbn. by repeat split.
  - split; [reflexivity|]. split; [exact Hin|]. split; [reflexivity|].
    discriminate.
Qed.

Lemma weather_query_single_request_witness :
  snd (api_airport_weather
         {| OPENWEATHER_API_KEY := Some "k";
            openweather := fun _ _ _ => None;
            opensky := Samples.feed_of [] |} [Samples.BOM] "bom")
  = [OpenWeatherCall (ap_lat Samples.BOM) (ap_lon Samples.BOM) "k"].
Proof.
  apply (weather_query_single_request
           {| OPENWEATHER_API_KEY := Some "k";
              openweather := fun _ _ _ => None;
              opensky := Samples.feed_of [] |} [Samples.BOM] "bom" "k"
           Samples.BOM); [reflexivity | reflexivity | discriminate].
Defined.

(** X14. Airport codes in a request are matched without regard to their
    case, on both airport queries; the stored code is compared as it is,
    so only a row whose code is in upper case can ever be found. *)
Theorem airport_code_matched_in_upper_case
    (m : Math.libm) (w : world) (airports : list airport) (code : string) :
  (forall code', Text.lower code' = Text.lower code ->
     api_airport_weather w airports code' = api_airport_weather w airports code
     /\ Traffic.api_airport_traffic m w airports code'
        = Traffic.api_airport_traffic m w airports code)
  /\ (forall ap, airport_by_code airports (Text.upper code) = Some ap ->
        ap_code ap = Text.upper code
        /\ Text.upper (ap_code ap) = ap_code ap).
Proof.
  split.
  - intros code' Hcase. apply same_key_of_same_case in Hcase.
    unfold api_airport_weather, Traffic.api_airport_traffic.
    by rewrite Hcase.
  - intros ap Hap. apply airport_by_code_found in Hap as [_ Hcode].
    split; [exact Hcode|]. rewrite Hcode. apply upper_idem.
Qed.

End WeatherMore.

(** ** Great-circle distance, continued *)

Section GeoMore.

Import Geo.
Local Open Scope R_scope.

Lemma haversine_unfold (lat1 lon1 lat2 lon2 : R) :
  haversine lat1 lon1 lat2 lon2
  = 6371 * (2 * asin (sqrt (Measure.haversine_a lat1 lon1 lat2 lon2))).
Proof. reflexivity. Qed.

Lemma asin_nonneg (x : R) : 0 <= x -> 0 <= asin x.
Proof.
  intros Hx. unfold asin. assert (HPI := PI_RGT_0).
  destruct (Rle_dec x (-1)); [lra|].
  destruct (Rle_dec 1 x); [lra|].
  assert (Hs : 0 < sqrt (1 - x²)).
  { apply sqrt_lt_R0. unfold Rsqr. nra. }
  assert (Hq : 0 <= x / sqrt (1 - x²)).
  { apply Rmult_le_pos; [exact Hx|]. left. by apply Rinv_0_lt_compat. }
  destruct Hq as [Hq|<-]; [|rewrite atan_0; lra].
  left. rewrite <- atan_0. by apply atan_increasing.
Qed.

Lemma cos_radians_nonneg (lat : R) : -90 <= lat <= 90 -> 0 <= cos (radians lat).
Proof.
  intros [Hlo Hhi]. assert (HPI := PI_RGT_0). unfold radians.
  apply cos_ge_0; nra.
Qed.

Lemma cos_product_le (p q : R) : cos (p - q) * cos (p + q) <= cos q ^ 2.
Proof.
  rewrite cos_minus, cos_plus.
  assert (Hp := sin2_cos2 p). assert (Hq := sin2_cos2 q).
  unfold Rsqr in Hp, Hq.
  set (cp := cos p) in *. set (sp := sin p) in *.
  set (cq := cos q) in *. set (sq := sin q) in *.
  assert (0 <= sp * sp) by nra.
  nra.
Qed.

Lemma cos_cos_le (u v : R) : cos u * cos v <= cos ((v - u) / 2) ^ 2.
Proof.
  pose proof (cos_product_le ((u + v) / 2) ((v - u) / 2)) as H.
  replace ((u + v) / 2 - (v - u) / 2) with u in H by lra.
  replace ((u + v) / 2 + (v - u) / 2) with v in H by lra.
  exact H.
Qed.

(** For latitudes between -90 and 90 the value under the square root
    is between 0 and 1. *)
Lemma haversine_a_range (lat1 lon1 lat2 lon2 : R) :
  -90 <= lat1 <= 90 -> -90 <= lat2 <= 90 ->
  0 <= Measure.haversine_a lat1 lon1 lat2 lon2 <= 1.
Proof.
  intros H1 H2. unfold Measure.haversine_a.
  assert (Hc1 := cos_radians_nonneg _ H1).
  assert (Hc2 := cos_radians_nonneg _ H2).
  assert (Hcc := cos_cos_le (radians lat1) (radians lat2)).
  replace ((radians lat2 - radians lat1) / 2)
    with (radians (lat2 - lat1) / 2) in Hcc by (unfold radians; lra).
  assert (Hs := sin2_cos2 (radians (lat2 - lat1) / 2)).
  assert (Ht := sin2_cos2 (radians (lon2 - lon1) / 2)).
  unfold Rsqr in Hs, Ht.
  set (s1 := sin (radians (lat2 - lat1) / 2)) in *.
  set (c1 := cos (radians (lat2 - lat1) / 2)) in *.
  set (s2 := sin (radians (lon2 - lon1) / 2)) in *.
  set (c2 := cos (radians (lon2 - lon1) / 2)) in *.
  set (k := cos (radians lat1) * cos (radians lat2)) in *.
  assert (0 <= k) by (unfold k; nra).
  assert (0 <= s2 * s2 <= 1) by nra.
  assert (0 <= s1 * s1) by nra.
  split; [nra|].
  assert (k * (s2 * s2) <= k) by nra.
  nra.
Qed.

Lemma haversine_nonneg (lat1 lon1 lat2 lon2 : R) :
  0 <= haversine lat1 lon1 lat2 lon2.
Proof.
  rewrite haversine_unfold.
  assert (H := asin_nonneg _ (sqrt_pos (Measure.haversine_a lat1 lon1 lat2 lon2))).
  lra.
Qed.

(** X16. Along a meridian the distance is the arc between the two
    latitudes: [6371 * |lat2 - lat1| * PI / 180] km, about 111.19 km per
    degree, whatever the common longitude. *)
Theorem haversine_along_meridian (lat1 lat2 lon : R) :
  -180 <= lat2 - lat1 <= 180 ->
  haversine lat1 lon lat2 lon = 6371 * (Rabs (lat2 - lat1) * (PI / 180)).
Proof.
  intros [Hlo Hhi]. assert (HPI := PI_RGT_0).
  rewrite haversine_unfold. unfold Measure.haversine_a.
  replace (radians (lon - lon) / 2) with 0 by (unfold radians; lra).
  rewrite sin_0.
  set (x := radians (lat2 - lat1) / 2).
  replace (sin x ^ 2 + cos (radians lat1) * cos (radians lat2) * 0 ^ 2)
    with (Rsqr (sin x)) by (unfold Rsqr; ring).
  rewrite sqrt_Rsqr_abs.
  assert (Hx : - (PI / 2) <= x <= PI / 2) by (unfold x, radians; split; nra).
  destruct (Rle_dec 0 (lat2 - lat1)) as [Hpos|Hneg].
  - assert (0 <= x) by (unfold x, radians; nra).
    rewrite (Rabs_right (sin x)) by (apply Rle_ge, sin_ge_0; lra).
    rewrite asin_sin by exact Hx.
    rewrite (Rabs_right (lat2 - lat1)) by lra. unfold x, radians. lra.
  - assert (x <= 0) by (unfold x, radians; nra).
    assert (Hsin : 0 <= sin (- x)) by (apply sin_ge_0; lra).
    rewrite (Rabs_left1 (sin x)) by (rewrite sin_neg in Hsin; lra).
    rewrite <- sin_neg, asin_sin by lra.
    rewrite (Rabs_left1 (lat2 - lat1)) by lra. unfold x, radians. lra.
Qed.

Lemma haversine_along_meridian_witness :
  haversine 19 72 20 72 = 6371 * (Rabs (20 - 19) * (PI / 180)).
Proof.
  apply (haversine_along_meridian 19 20 72); lra.
Defined.

End GeoMore.

(** ** Airport traffic, continued *)

Section TrafficMore.

Import Traffic.

Lemma round_half_even_close (x : Q) :
  (Qabs (inject_Z (Double.round_half_even x) - x) <= 1 # 2)%Q.
Proof.
  assert (Hlo := Qfloor_le x). assert (Hhi := Qlt_floor x).
  rewrite inject_Z_plus in Hhi. change (inject_Z 1) with 1%Q in Hhi.
  unfold Double.round_half_even. apply Qabs_case; intros _.
  - destruct (x - inject_Z (Qfloor x) ?= 1 # 2)%Q eqn:E.
    + destruct (Z.even (Qfloor x)); [Lqa.lra|].
      apply Qeq_alt in E. rewrite inject_Z_plus.
      change (inject_Z 1) with 1%Q. Lqa.lra.
    + Lqa.lra.
    + apply Qgt_alt in E. rewrite inject_Z_plus.
      change (inject_Z 1) with 1%Q. Lqa.lra.
  - destruct (x - inject_Z (Qfloor x) ?= 1 # 2)%Q eqn:E.
    + apply Qeq_alt in E. destruct (Z.even (Qfloor x)); [Lqa.lra|].
      rewrite inject_Z_plus. change (inject_Z 1) with 1%Q. Lqa.lra.
    + apply Qlt_alt in E. Lqa.lra.
    + rewrite inject_Z_plus. change (inject_Z 1) with 1%Q. Lqa.lra.
Qed.

(** The decimal that [round(dist, 1)] converts to a float is within 0.05
    of [dist]. *)
Lemma py_round1_decimal (d : Q) :
  exists n : Z,
    Double.py_round1 d = Double.round (inject_Z n / 10)
    /\ (Qabs (inject_Z n / 10 - d) <= 1 # 20)%Q.
Proof.
  exists (Double.round_half_even (d * 10)). split; [reflexivity|].
  assert (H := round_half_even_close (d * 10)).
  revert H. apply Qabs_case; intros H1; apply Qabs_case; intros H2 H;
    unfold Qdiv; change (/ 10)%Q with (1 # 10)%Q; Lqa.lra.
Qed.

Lemma single_length (m : Math.libm) (lat0 lon0 : Q) (s : state_vector)
    (b : buckets) :
  single m lat0 lon0 s = Return b ->
  (List.length (arrivals b) + List.length (departures b)
   + List.length (others b) <= 1)%nat.
Proof.
  destruct (sv_lat s) as [lat|] eqn:Hlat.
  2:{ rewrite single_unpositioned by (by left). intros [= <-]. simpl; lia. }
  destruct (sv_lon s) as [lon|] eqn:Hlon.
  2:{ rewrite single_unpositioned by (by right). intros [= <-]. simpl; lia. }
  destruct (haversine m lat0 lon0 lat lon) as [d|e] eqn:Hd.
  - rewrite (single_positioned m lat0 lon0 s lat lon d Hlat Hlon Hd).
    intros [= <-]. destruct (verdict _ _) as [[]|]; simpl; lia.
  - intros H. assert (single m lat0 lon0 s = Raise e) as He.
    { apply single_raise. by exists lat, lon. }
    congruence.
Qed.

Lemma classify_length (m : Math.libm) (lat0 lon0 : Q)
    (sts : list state_vector) (r : buckets) :
  classify m lat0 lon0 sts = Return r ->
  (List.length (arrivals r) + List.length (departures r)
   + List.length (others r) <= List.length sts)%nat.
Proof.
  revert r. induction sts as [|s sts IH]; intros r.
  - intros [= <-]. simpl; lia.
  - rewrite classify_cons.
    destruct (single m lat0 lon0 s) as [b|e] eqn:Hs; cbn [bind];
      [|discriminate].
    destruct (classify m lat0 lon0 sts) as [r'|e]; cbn [bind];
      [|discriminate].
    intros [= <-]. assert (H := single_length m lat0 lon0 s b Hs).
    assert (H' := IH r' eq_refl). unfold merge; cbn [arrivals departures others].
    rewrite !length_app. cbn [List.length]. lia.
Qed.

(** X17. When the traffic loop returns, every entry of a bucket obeys the
    rule of its bucket. It comes from a state vector of the feed with
    that position, whose computed distance [d] from the airport is at
    most 100 km; arrivals are beyond 30 km with a heading other than 0
    and 360, departures are nearer than 30 km, and the others are at 30
    km or more, either at exactly 30 km or with heading 0 or 360. The
    heading is the record's, 0 when absent; the callsign is the record's,
    trimmed; the reported [distance_km] is [round(d, 1)], the float
    nearest to a decimal with one digit that is within 0.05 of [d]. *)
Theorem traffic_entries_follow_rule
    (m : Math.libm) (lat0 lon0 : Q) (sts : list state_vector) (r : buckets)
    (k : bucket) (i : info) :
  classify m lat0 lon0 sts = Return r ->
  In i (bucket_of k r) ->
  let h := i_heading i in
  exists s d,
    In s sts /\ sv_lat s = Some (i_lat i) /\ sv_lon s = Some (i_lon i)
    /\ haversine m lat0 lon0 (i_lat i) (i_lon i) = Return d
    /\ (d <= 100)%Q
    /\ match k with
       | Arrivals => (30 < d)%Q /\ ~ (h == 0)%Q /\ ~ (h == 360)%Q
       | Departures => (d < 30)%Q
       | Others => (30 <= d)%Q /\ ((d == 30)%Q \/ (h == 0)%Q \/ (h == 360)%Q)
       end
    /\ h = Py.or_zero (sv_heading s)
    /\ i_callsign i = Text.strip (Py.or_empty (sv_callsign s))
    /\ Text.strip (i_callsign i) = i_callsign i
    /\ i_distance_km i = Double.py_round1 d
    /\ exists n : Z,
         i_distance_km i = Double.round (inject_Z n / 10)
         /\ (Qabs (inject_Z n / 10 - d) <= 1 # 20)%Q.
Proof.
  intros Hr Hin. cbv zeta.
  apply (in_bucket m lat0 lon0 sts r k i Hr) in Hin
    as (s & lat & lon & d & Hs & Hlat & Hlon & Hd & -> & Hv).
  cbn [info_of i_lat i_lon i_heading i_distance_km i_callsign].
  apply verdict_inv in Hv as [H100 Hk].
  exists s, d. repeat (split; [done|]).
  split; [apply strip_idem|]. split; [reflexivity|].
  apply py_round1_decimal.
Qed.

Lemma traffic_entries_follow_rule_witness :
  exists r i d,
    classify Samples.glibc 0 0 Samples.equator_feed = Return r
    /\ arrivals r = [i]
    /\ haversine Samples.glibc 0 0 (i_lat i) (i_lon i) = Return d
    /\ (30 < d)%Q /\ (d <= 100)%Q
    /\ i_distance_km i = Double.py_round1 d
    /\ (i_distance_km i == Double.round (556 # 10))%Q.
Proof.
  destruct (classify Samples.glibc 0 0 Samples.equator_feed) as [r|e] eqn:Hr;
    [|vm_compute in Hr; discriminate Hr].
  assert (Ha : exists i, arrivals r = [i] /\ i_lon i = 1 # 2
                         /\ i_lat i = 0%Q).
  { vm_compute in Hr. injection Hr as <-. eexists.
    split; [reflexivity|]. split; reflexivity. }
  destruct Ha as (i & Ha & Hlon & Hlat).
  destruct (traffic_entries_follow_rule Samples.glibc 0 0
              Samples.equator_feed r Arrivals i Hr)
    as (s & d & _ & _ & _ & Hd & H100 & [H30 _] & _ & _ & _ & Hkm & _).
  { cbn [bucket_of]. rewrite Ha. by left. }
  exists r, i, d. split; [reflexivity|]. split; [exact Ha|].
  split; [exact Hd|]. split; [exact H30|]. split; [exact H100|].
  split; [exact Hkm|].
  rewrite Hkm. rewrite Hlat, Hlon in Hd. vm_compute in Hd.
  injection Hd as <-. vm_compute. reflexivity.
Defined.

(** X18. The buckets of a concatenated feed are the buckets of the parts
    one after the other, so entries keep the order of the feed; an
    exception raised in the first part is the outcome of the whole; and
    each state vector gives at most one entry over the three buckets
    together. *)
Theorem traffic_buckets_of_concatenated_feed
    (m : Math.libm) (lat0 lon0 : Q) (sts1 sts2 : list state_vector) :
  classify m lat0 lon0 (sts1 ++ sts2)
  = (r1 <- classify m lat0 lon0 sts1 ;;
     r2 <- classify m lat0 lon0 sts2 ;;
     Return (merge r1 r2))
  /\ (forall r1 r2 k,
        bucket_of k (merge r1 r2) = bucket_of k r1 ++ bucket_of k r2)
  /\ (forall r1 r2,
        classify m lat0 lon0 sts1 = Return r1 ->
        classify m lat0 lon0 sts2 = Return r2 ->
        exists r, classify m lat0 lon0 (sts1 ++ sts2) = Return r
          /\ forall k, bucket_of k r = bucket_of k r1 ++ bucket_of k r2)
  /\ (forall e, classify m lat0 lon0 sts1 = Raise e ->
        classify m lat0 lon0 (sts1 ++ sts2) = Raise e)
  /\ (forall r1, classify m lat0 lon0 sts1 = Return r1 ->
        (List.length (arrivals r1) + List.length (departures r1)
         + List.length (others r1) <= List.length sts1)%nat).
Proof.
  split; [apply classify_app|]. split; [intros; apply bucket_of_merge|].
  split; [|split].
  - intros r1 r2 H1 H2. exists (merge r1 r2).
    split; [by rewrite classify_app, H1, H2|].
    intros k. apply bucket_of_merge.
  - intros e H1. by rewrite classify_app, H1.
  - intros r1. apply classify_length.
Qed.

End TrafficMore.

(** ** Floating point *)

Section DoubleFacts.

Lemma round_zero (x : Q) : Qnum x = 0%Z -> Double.round x = 0%Q.
Proof. unfold Double.round. by intros ->. Qed.

Lemma Qopp_opp_eq (q : Q) : (- - q)%Q = q.
Proof. destruct q as [n d]. unfold Qopp; cbn [Qnum Qden]. by rewrite Z.opp_involutive. Qed.

Lemma round_opp (x : Q) : Double.round (- x) = (- Double.round x)%Q.
Proof.
  destruct x as [[|n|n] d]; unfold Double.round;
    cbn [Qopp Qnum Qden Z.opp]; [reflexivity | reflexivity |].
  by rewrite Qopp_opp_eq.
Qed.

Lemma Qminus_swap (x y : Q) : (x - y)%Q = (- (y - x))%Q.
Proof.
  destruct x as [a b], y as [c d]. unfold Qminus, Qplus, Qopp; cbn [Qnum Qden].
  f_equal; [ring | apply Pos.mul_comm].
Qed.

Lemma Qmult_opp_eq (x y : Q) : (- x * y)%Q = (- (x * y))%Q.
Proof.
  destruct x as [a b], y as [c d]. unfold Qmult, Qopp; cbn [Qnum Qden].
  f_equal. apply Z.mul_opp_l.
Qed.

Lemma Qmult_comm_eq (x y : Q) : (x * y)%Q = (y * x)%Q.
Proof.
  destruct x as [a b], y as [c d]. unfold Qmult; cbn [Qnum Qden].
  f_equal; [apply Z.mul_comm | apply Pos.mul_comm].
Qed.

Lemma sub_self (x : Q) : Double.sub x x = 0%Q.
Proof.
  apply round_zero. destruct x as [a b].
  unfold Qminus, Qplus, Qopp; cbn [Qnum Qden]. ring.
Qed.

Lemma sub_swap (x y : Q) : Double.sub x y = (- Double.sub y x)%Q.
Proof. unfold Double.sub. by rewrite <- round_opp, <- Qminus_swap. Qed.

Lemma mul_opp_l (x y : Q) : Double.mul (- x) y = (- Double.mul x y)%Q.
Proof. unfold Double.mul. by rewrite <- round_opp, Qmult_opp_eq. Qed.

Lemma div_opp_l (x y : Q) : Double.div (- x) y = (- Double.div x y)%Q.
Proof. unfold Double.div, Qdiv. by rewrite <- round_opp, Qmult_opp_eq. Qed.

Lemma mul_comm (x y : Q) : Double.mul x y = Double.mul y x.
Proof. unfold Double.mul. by rewrite Qmult_comm_eq. Qed.

Lemma mul_zero_r (x : Q) : Double.mul x 0 = 0%Q.
Proof. apply round_zero. destruct x as [a b]. cbn. apply Z.mul_0_r. Qed.

Lemma radians_opp (x : Q) : Math.radians (- x) = (- Math.radians x)%Q.
Proof. apply mul_opp_l. Qed.

Lemma haversine_computed_a (m : Math.libm) (lat1 lon1 lat2 lon2 : Q) :
  Traffic.haversine m lat1 lon1 lat2 lon2
  = (s <- Math.sqrt m (Measure.computed_a m lat1 lon1 lat2 lon2) ;;
     x <- Math.asin m s ;;
     Return (Double.mul 6371 (Double.mul 2 x))).
Proof. reflexivity. Qed.

End DoubleFacts.

(** ** The computed distance *)

Section FloatDistance.

Import Traffic.

(** X15. [haversine] raises [ValueError] exactly when the computed value
    [a] is negative or its computed square root is outside [-1, 1], and
    returns [6371 * (2 * asin (sqrt a))] otherwise. Over the reals the
    value [a] lies between 0 and 1 for latitudes between -90 and 90
    degrees, and the distance between 0 and [6371 * PI] km; rounding does
    not keep this: for the sample airport and the record near its
    antipode the computed [a] is 1.0000000000000004. *)
Theorem haversine_within_domain_and_range
    (m : Math.libm) (lat1 lon1 lat2 lon2 : Q) :
  let a := Measure.computed_a m lat1 lon1 lat2 lon2 in
  let s := Math.c_sqrt m a in
  (haversine m lat1 lon1 lat2 lon2 = Raise ValueError
   <-> (a < 0)%Q \/ (1 < Qabs s)%Q)
  /\ (haversine m lat1 lon1 lat2 lon2
      = Return (Double.mul 6371 (Double.mul 2 (Math.c_asin m s)))
      <-> (0 <= a)%Q /\ (Qabs s <= 1)%Q)
  /\ (forall x1 y1 x2 y2 : R,
        (-90 <= x1 <= 90)%R -> (-90 <= x2 <= 90)%R ->
        (0 <= Measure.haversine_a x1 y1 x2 y2 <= 1
         /\ 0 <= sqrt (Measure.haversine_a x1 y1 x2 y2) <= 1
         /\ 0 <= Geo.haversine x1 y1 x2 y2 <= 6371 * PI)%R)
  /\ (Measure.computed_a Samples.glibc
        (ap_lat Samples.far_airport) (ap_lon Samples.far_airport)
        (-4535406356033795 # 70368744177664)
        (-4848476842585227 # 70368744177664)
      == 1 + Double.pow2 (-51))%Q.
Proof.
  cbv zeta. rewrite haversine_computed_a. unfold Math.sqrt, Math.asin.
  set (a := Measure.computed_a m lat1 lon1 lat2 lon2).
  split; [|split; [|split]].
  - destruct (Py.Qlt_bool a 0) eqn:Ea; cbn [bind].
    + apply Qlt_bool_iff in Ea. split; [by left|reflexivity].
    + destruct (Py.Qlt_bool 1 (Qabs (Math.c_sqrt m a))) eqn:Es; cbn [bind].
      * apply Qlt_bool_iff in Es. split; [by right|reflexivity].
      * split; [discriminate|]. intros [H|H]; apply Qlt_bool_iff in H;
          congruence.
  - destruct (Py.Qlt_bool a 0) eqn:Ea; cbn [bind].
    + apply Qlt_bool_iff in Ea. split; [discriminate|]. intros [H _].
      Lqa.lra.
    + assert (Ha : (0 <= a)%Q).
      { destruct (Qlt_le_dec a 0) as [H|H]; [|exact H].
        apply Qlt_bool_iff in H. congruence. }
      destruct (Py.Qlt_bool 1 (Qabs (Math.c_sqrt m a))) eqn:Es; cbn [bind].
      * apply Qlt_bool_iff in Es. split; [discriminate|]. intros [_ H].
        Lqa.lra.
      * split; [|reflexivity]. intros _. split; [exact Ha|].
        destruct (Qlt_le_dec 1 (Qabs (Math.c_sqrt m a))) as [H|H];
          [|exact H].
        apply Qlt_bool_iff in H. congruence.
  - intros x1 y1 x2 y2 H1 H2.
    destruct (haversine_a_range x1 y1 x2 y2 H1 H2) as [Ha0 Ha1].
    split; [by split|]. split.
    + split; [apply sqrt_pos|]. rewrite <- sqrt_1. by apply sqrt_le_1_alt.
    + split; [apply haversine_nonneg|]. rewrite haversine_unfold.
      destruct (asin_bound (sqrt (Measure.haversine_a x1 y1 x2 y2)))
        as [_ Hub].
      lra.
  - vm_compute. reflexivity.
Qed.

(** X28. In floating point too the distance from a point to itself is
    0.0, on every platform where [sin(0.0)], [0.0 ** 2], [sqrt(0.0)] and
    [asin(0.0)] are 0.0. *)
Theorem computed_distance_to_itself_is_zero
    (m : Math.libm) (lat lon : Q) :
  Math.c_sin m 0 = 0%Q -> Math.c_pow m 0 2 = 0%Q ->
  Math.c_sqrt m 0 = 0%Q -> Math.c_asin m 0 = 0%Q ->
  haversine m lat lon lat lon = Return 0%Q.
Proof.
  intros Hsin Hpow Hsqrt Hasin.
  rewrite haversine_computed_a. unfold Measure.computed_a.
  rewrite !sub_self.
  change (Double.div (Math.radians 0) 2) with 0%Q.
  unfold Math.sin, Math.pow. rewrite Hsin, Hpow, mul_zero_r.
  change (Double.add 0 0) with 0%Q.
  unfold Math.sqrt, Math.asin. cbn [Py.Qlt_bool].
  change (Py.Qlt_bool 0 0) with false. cbn [bind]. rewrite Hsqrt.
  change (Py.Qlt_bool 1 (Qabs 0)) with false. cbn [bind]. rewrite Hasin.
  reflexivity.
Qed.

Lemma computed_distance_to_itself_is_zero_witness :
  haversine Samples.glibc (ap_lat Samples.BOM) (ap_lon Samples.BOM)
    (ap_lat Samples.BOM) (ap_lon Samples.BOM) = Return 0%Q.
Proof.
  apply (computed_distance_to_itself_is_zero Samples.glibc);
    reflexivity.
Defined.

(** X29. In floating point too the distance does not depend on the order
    of the two points, provided [sin(-x) ** 2 == sin(x) ** 2] at the two
    half differences [x] of the coordinates in radians: subtraction,
    [radians], division by 2 and the product of the cosines commute with
    the exchange exactly. *)
Theorem computed_distance_symmetric
    (m : Math.libm) (lat1 lon1 lat2 lon2 : Q) :
  let u := Double.div (Math.radians (Double.sub lat2 lat1)) 2 in
  let v := Double.div (Math.radians (Double.sub lon2 lon1)) 2 in
  Math.pow m (Math.sin m (- u)) 2 = Math.pow m (Math.sin m u) 2 ->
  Math.pow m (Math.sin m (- v)) 2 = Math.pow m (Math.sin m v) 2 ->
  haversine m lat1 lon1 lat2 lon2 = haversine m lat2 lon2 lat1 lon1.
Proof.
  cbv zeta. intros Hu Hv.
  rewrite !haversine_computed_a. unfold Measure.computed_a.
  rewrite (sub_swap lat1 lat2), (sub_swap lon1 lon2).
  rewrite !radians_opp, !div_opp_l, Hu, Hv.
  by rewrite (mul_comm (Math.cos m (Math.radians lat2))).
Qed.

Lemma computed_distance_symmetric_witness :
  haversine Samples.glibc 0 0 0 (1 # 2)
  = haversine Samples.glibc 0 (1 # 2) 0 0.
Proof.
  apply (computed_distance_symmetric Samples.glibc 0 0 0 (1 # 2));
    vm_compute; reflexivity.
Defined.

End FloatDistance.

(** ** Route lookup *)

Section RoutesFacts.

Import Routes.
Local Open Scope string_scope.

Lemma truthy_true (s : string) : Text.truthy s = true <-> s <> "".
Proof. destruct s; simpl; split; congruence. Qed.

(** X19. The route query answers 400 when [origin] or [dest] is absent
    or empty, before any lookup; otherwise 404 when either code, taken
    in upper case, is not in [airports]; otherwise a payload with the
    upper-cased codes and the coordinates stored for the two airports.
    Origin and destination may be the same airport. *)
Theorem route_query_outcomes
    (airports : list airport) (origin_arg dest_arg : option string) :
  let origin := Text.upper (Py.get origin_arg "") in
  let dest := Text.upper (Py.get dest_arg "") in
  let r := api_routes airports origin_arg dest_arg in
  (origin = "" \/ dest = "" -> r = Error 400 "origin and dest required")
  /\ (origin <> "" -> dest <> "" ->
      airport_by_code airports origin = None
      \/ airport_by_code airports dest = None ->
      r = Error 404 "Unknown origin/dest")
  /\ (forall o d, origin <> "" -> dest <> "" ->
        airport_by_code airports origin = Some o ->
        airport_by_code airports dest = Some d ->
        exists p, r = Ok p
          /\ r_origin (route p) = origin /\ r_dest (route p) = dest
          /\ origin_coords p = (ap_lat o, ap_lon o)
          /\ dest_coords p = (ap_lat d, ap_lon d)
          /\ ap_code o = origin /\ ap_code d = dest)
  /\ (forall p, r = Ok p -> origin <> "" /\ dest <> "").
Proof.
  cbv zeta. unfold api_routes.
  set (origin := Text.upper (Py.get origin_arg "")).
  set (dest := Text.upper (Py.get dest_arg "")).
  split; [|split; [|split]].
  - intros [H|H]; rewrite H; cbn [Text.truthy negb orb];
      [reflexivity|by rewrite orb_true_r].
  - intros Ho Hd Hnone. apply truthy_true in Ho, Hd. rewrite Ho, Hd.
    cbn [negb orb].
    destruct Hnone as [-> | ->]; [reflexivity|].
    by destruct (airport_by_code airports origin).
  - intros o d Ho Hd Hfo Hfd. apply truthy_true in Ho, Hd.
    rewrite Ho, Hd, Hfo, Hfd. cbn [negb orb]. eexists. split; [reflexivity|].
    cbn. repeat split.
    + by apply airport_by_code_found in Hfo as [_ ?].
    + by apply airport_by_code_found in Hfd as [_ ?].
  - intros p. destruct (Text.truthy origin) eqn:Eo; cbn [negb orb];
      [|discriminate].
    destruct (Text.truthy dest) eqn:Ed; cbn [negb]; [|discriminate].
    intros _. by split; apply truthy_true.
Qed.

(** X20. Exchanging origin and destination exchanges the two pairs of
    coordinates and the two codes of the payload, and an error answer
    stays the same error. *)
Theorem route_query_reversed
    (airports : list airport) (origin_arg dest_arg : option string) :
  match api_routes airports origin_arg dest_arg with
  | Ok p =>
      exists p', api_routes airports dest_arg origin_arg = Ok p'
        /\ origin_coords p' = dest_coords p
        /\ dest_coords p' = origin_coords p
        /\ r_origin (route p') = r_dest (route p)
        /\ r_dest (route p') = r_origin (route p)
  | Error status message =>
      api_routes airports dest_arg origin_arg = Error status message
  end.
Proof.
  unfold api_routes.
  destruct (Text.truthy (Text.upper (Py.get origin_arg ""))),
           (Text.truthy (Text.upper (Py.get dest_arg ""))); cbn [negb orb];
    try reflexivity.
  destruct (airport_by_code airports (Text.upper (Py.get origin_arg ""))),
           (airport_by_code airports (Text.upper (Py.get dest_arg "")));
    try reflexivity.
  eexists. split; [reflexivity|]. by repeat split.
Qed.

End RoutesFacts.

(** ** Sessions *)

Section AuthFacts.

Import Auth.
Local Open Scope string_scope.

Variable sha256_hexdigest : string -> string.

(** X21. A login changes the session only on a POST whose trimmed email
    selects a user whose stored hash equals the hash of the submitted
    password; the session then names that user and the answer redirects
    to the dashboard. Every other request renders the login page and
    leaves the session as it was, so a failed login does not end a
    session that is already open. *)
Theorem login_needs_matching_hash
    (m : http_method) (f : form) (users : list user) (s : session) :
  let email := Text.strip (Py.get (f_email f) "") in
  let password := Py.get (f_password f) "" in
  let r := login sha256_hexdigest m f users s in
  let granted :=
    m = POST /\ exists u, user_by_email users email = Some u
                 /\ sha256_hexdigest password = u_password_hash u in
  (granted ->
     exists u, In u users /\ u_email u = email
       /\ r = (Redirect "dashboard",
               {| user_id := Some (u_id u); user_name := Some (u_name u) |}))
  /\ (~ granted ->
      snd r = s
      /\ fst r = Render "login.html"
                   (match m with
                    | POST => Some "Invalid credentials"
                    | GET => None
                    end)).
Proof.
  cbv zeta. unfold login, check_password, hash_password. split.
  - intros [-> (u & Hu & Hh)]. rewrite Hu.
    rewrite (proj2 (String.eqb_eq _ _) Hh).
    exists u. unfold user_by_email in Hu.
    apply List.find_some in Hu as [Hin Heq]. apply String.eqb_eq in Heq.
    by repeat split.
  - intros Hno. destruct m; [by split|].
    destruct (user_by_email users _) as [u|] eqn:Hu; [|by split].
    destruct (String.eqb _ _) eqn:Hh; [|by split].
    apply String.eqb_eq in Hh. exfalso. apply Hno. split; [reflexivity|].
    by exists u.
Qed.

(** X22. Without [user_id] in the session every decorated route answers
    a redirect to the login page and has no effect: the live-flights
    route stores no row, the airport routes make no outgoing request,
    and the view is not consulted. *)
Theorem anonymous_requests_have_no_effect (s : session) :
  user_id s = None ->
  (forall (A : Type) (view : unit -> answer A),
     login_required view s = Redirect "login")
  /\ index s = Redirect "login"
  /\ dashboard s = Redirect "login"
  /\ analytics s = Redirect "login"
  /\ (forall now a data table,
        flights_live_route s now a data table = (Redirect "login", table))
  /\ (forall m w airports code,
        airport_weather_route s w airports code = (Redirect "login", [])
        /\ airport_traffic_route m s w airports code
           = (Redirect "login", [])).
Proof.
  intros Hs.
  unfold index, dashboard, analytics, flights_live_route,
    airport_weather_route, airport_traffic_route, login_required.
  rewrite Hs. by repeat split.
Qed.

Lemma anonymous_requests_have_no_effect_witness :
  flights_live_route cleared 0 (Samples.search "ai")
    (Samples.feed_of [Samples.padded_vector]) []
  = (Redirect "login", []).
Proof.
  apply (anonymous_requests_have_no_effect cleared). reflexivity.
Defined.

(** X23. The life of a session: after a granted login every decorated
    route runs its handler, and the live-flights route answers and
    stores what the handler does; after [logout] the same routes
    redirect to the login page again. *)
Theorem session_opens_and_closes
    (f : form) (users : list user) (s : session) (u : user) :
  user_by_email users (Text.strip (Py.get (f_email f) "")) = Some u ->
  sha256_hexdigest (Py.get (f_password f) "") = u_password_hash u ->
  let opened := snd (login sha256_hexdigest POST f users s) in
  let closed := snd (logout opened) in
  user_id opened = Some (u_id u)
  /\ index opened = Redirect "dashboard"
  /\ (forall (A : Type) (view : unit -> answer A),
        login_required view opened = view tt
        /\ login_required view closed = Redirect "login")
  /\ (forall now a data table,
        flights_live_route opened now a data table
        = (Value (fst (Live.api_flights_live now a data table)),
           snd (Live.api_flights_live now a data table))
        /\ flights_live_route closed now a data table
           = (Redirect "login", table))
  /\ index closed = Redirect "login".
Proof.
  intros Hu Hh. cbv zeta.
  unfold login, check_password, hash_password. rewrite Hu.
  rewrite (proj2 (String.eqb_eq _ _) Hh). cbn [snd logout].
  unfold index, flights_live_route, login_required.
  cbn [user_id cleared]. by repeat split.
Qed.

End AuthFacts.

Lemma session_opens_and_closes_witness :
  Auth.index
    (snd (Auth.login (fun pwd => pwd) Auth.POST
            {| Auth.f_email := Some " a@b.c "%string;
               Auth.f_password := Some "pw"%string |}
            [Auth.Build_user 7 "Ann" "a@b.c" "pw" "user"] Auth.cleared))
  = Auth.Redirect "dashboard".
Proof.
  apply (session_opens_and_closes (fun pwd => pwd)
           {| Auth.f_email := Some " a@b.c "%string;
              Auth.f_password := Some "pw"%string |}
           [Auth.Build_user 7 "Ann" "a@b.c" "pw" "user"] Auth.cleared
           (Auth.Build_user 7 "Ann" "a@b.c" "pw" "user"));
    reflexivity.
Defined.

(** ** Start-up *)

Section SetupFacts.

Import Auth Setup.
Local Open Scope string_scope.

Variable sha256_hexdigest : string -> string.

Lemma find_app_none {A : Type} (p : A -> bool) (l l' : list A) :
  List.find p l = None -> List.find p (l ++ l') = List.find p l'.
Proof.
  induction l as [|x l IH]; simpl; [reflexivity|].
  destruct (p x); [discriminate|exact IH].
Qed.

Lemma find_app_some {A : Type} (p : A -> bool) (l l' : list A) (x : A) :
  List.find p l = Some x -> List.find p (l ++ l') = Some x.
Proof.
  induction l as [|y l IH]; simpl; [discriminate|].
  destruct (p y); [by intros|exact IH].
Qed.

Lemma next_id_above (us : list user) (u : user) :
  In u us -> (u_id u < next_id us)%Z.
Proof.
  unfold next_id. induction us as [|v us IH]; simpl; [intros []|].
  intros [->|Hin]; [lia|]. specialize (IH Hin). lia.
Qed.

Lemma user_by_email_none (us : list user) (email : string) :
  user_by_email us email = None -> ~ In email (map u_email us).
Proof.
  unfold user_by_email. intros Hnone Hin.
  apply in_map_iff in Hin as (u & <- & Hu).
  apply (List.find_none _ _ Hnone) in Hu. by rewrite String.eqb_refl in Hu.
Qed.

(** After [init_db] the admin email is taken, by the row that was there or
    by the one inserted. *)
Lemma init_db_admin_present (db : database) :
  exists u, user_by_email (users (init_db sha256_hexdigest db))
              "admin@example.com" = Some u.
Proof.
  unfold init_db; cbn [users].
  destruct (user_by_email (users db) "admin@example.com") as [u|] eqn:E.
  - by exists u.
  - eexists. unfold user_by_email in *. rewrite (find_app_none _ _ _ E).
    reflexivity.
Qed.

(** X24. [init_db] is idempotent: run on its own result it changes
    nothing, so restarting the application neither duplicates the admin
    nor the sample airports. *)
Theorem init_db_idempotent (db : database) :
  init_db sha256_hexdigest (init_db sha256_hexdigest db)
  = init_db sha256_hexdigest db.
Proof.
  destruct (init_db_admin_present db) as [u Hu].
  unfold init_db at 1. rewrite Hu.
  assert (Hap : (List.length (airports (init_db sha256_hexdigest db)) =? 0)%nat
                = false).
  { unfold init_db; cbn [airports].
    destruct (airports db) as [|a l]; simpl; reflexivity. }
  rewrite Hap. by destruct (init_db sha256_hexdigest db).
Qed.

(** X25. [init_db] only adds rows: the users and airports that were
    stored stay, in place, with at most one user added, and the
    snapshots are untouched. It keeps emails and ids unique, and leaves
    an admin email and at least one airport behind; a table of airports
    that is not empty is left as it is. *)
Theorem init_db_only_adds_and_keeps_keys (db : database) :
  NoDup (map u_email (users db)) -> NoDup (map u_id (users db)) ->
  let db' := init_db sha256_hexdigest db in
  (exists new, users db' = (users db ++ new)%list /\ (List.length new <= 1)%nat)
  /\ (exists new, airports db' = (airports db ++ new)%list)
  /\ (airports db <> [] -> airports db' = airports db)
  /\ flight_snapshots db' = flight_snapshots db
  /\ NoDup (map u_email (users db'))
  /\ NoDup (map u_id (users db'))
  /\ airports db' <> []
  /\ In "admin@example.com" (map u_email (users db')).
Proof.
  intros Hemail Hid. cbv zeta. unfold init_db;
    cbn [users airports flight_snapshots].
  assert (Haps : (exists new, (if (List.length (airports db) =? 0)%nat
                               then (airports db ++ sample_airports)%list
                               else airports db) = (airports db ++ new)%list)
                 /\ (airports db <> [] ->
                     (if (List.length (airports db) =? 0)%nat
                      then (airports db ++ sample_airports)%list
                      else airports db) = airports db)
                 /\ (if (List.length (airports db) =? 0)%nat
                     then (airports db ++ sample_airports)%list
                     else airports db) <> []).
  { destruct (airports db) as [|a l]; simpl.
    - split; [by eexists|]. split; [congruence|discriminate].
    - split; [exists []; by rewrite app_nil_r|]. split; [done|discriminate]. }
  destruct Haps as (Ha1 & Ha2 & Ha3).
  destruct (user_by_email (users db) "admin@example.com") as [u|] eqn:E.
  - split; [exists []; split; [by rewrite app_nil_r|simpl; lia]|].
    repeat split; try assumption.
    unfold user_by_email in E. apply List.find_some in E as [Hin Heq].
    apply String.eqb_eq in Heq. rewrite <- Heq. by apply in_map.
  - split; [eexists; split; [reflexivity|simpl; lia]|].
    repeat split; try assumption.
    + rewrite map_app. cbn [map u_email].
      apply NoDup_app. split; [exact Hemail|]. split; [|repeat constructor].
      * intros e He [<-|[]]%list_elem_of_In.
        apply list_elem_of_In in He. by apply user_by_email_none in E.
      * by intros []%list_elem_of_In.
    + rewrite map_app. cbn [map u_id].
      apply NoDup_app. split; [exact Hid|]. split; [|repeat constructor].
      * intros i Hi [<-|[]]%list_elem_of_In.
        apply list_elem_of_In, in_map_iff in Hi as (v & Hv & Hin).
        apply next_id_above in Hin. lia.
      * by intros []%list_elem_of_In.
    + rewrite map_app. apply in_or_app. right. by left.
Qed.

(** X26. On a database where the admin email is free, [init_db] makes
    the default account usable: a POST login with [admin@example.com]
    and [admin123] is granted and opens a session for the new row named
    Admin. Where the email is already taken the users are left alone,
    so the existing password stays in force. *)
Theorem init_db_default_admin_can_log_in (db : database) (s : session) :
  user_by_email (users db) "admin@example.com" = None ->
  login sha256_hexdigest POST
    {| f_email := Some "admin@example.com"; f_password := Some "admin123" |}
    (users (init_db sha256_hexdigest db)) s
  = (Redirect "dashboard",
     {| user_id := Some (next_id (users db)); user_name := Some "Admin" |}).
Proof.
  intros Hfree. unfold init_db; cbn [users]. rewrite Hfree.
  unfold login. cbn [f_email f_password Py.get].
  change (Text.strip "admin@example.com") with "admin@example.com".
  unfold user_by_email in *. rewrite (find_app_none _ _ _ Hfree).
  cbn [List.find u_email]. rewrite String.eqb_refl.
  unfold check_password. cbn [u_password_hash]. by rewrite String.eqb_refl.
Qed.

End SetupFacts.

Lemma init_db_only_adds_and_keeps_keys_witness :
  In "admin@example.com"%string
     (map Auth.u_email
        (Setup.users
           (Setup.init_db (fun pwd => pwd)
              {| Setup.users := []; Setup.airports := [];
                 Setup.flight_snapshots := [] |}))).
Proof.
  apply (init_db_only_adds_and_keeps_keys (fun pwd => pwd)
           {| Setup.users := []; Setup.airports := [];
              Setup.flight_snapshots := [] |});
    constructor.
Defined.

Lemma init_db_default_admin_can_log_in_witness :
  Auth.login (fun pwd => pwd) Auth.POST
    {| Auth.f_email := Some "admin@example.com"%string;
       Auth.f_password := Some "admin123"%string |}
    (Setup.users
       (Setup.init_db (fun pwd => pwd)
          {| Setup.users := []; Setup.airports := [];
             Setup.flight_snapshots := [] |})) Auth.cleared
  = (Auth.Redirect "dashboard",
     {| Auth.user_id := Some 1%Z; Auth.user_name := Some "Admin"%string |}).
Proof.
  apply (init_db_default_admin_can_log_in (fun pwd => pwd)
           {| Setup.users := []; Setup.airports := [];
              Setup.flight_snapshots := [] |} Auth.cleared).
  reflexivity.
Defined.
